(** * Encrypted key-pair lifecycle of cosign ([pkg/cosign/keys.go])

    A shallow embedding of [keys.go]: key generation, import of plain PEM keys,
    encoding of a key pair into an encrypted bundle, and the three loaders that
    turn an encrypted bundle back into a signer/verifier.

    The Go standard library and the third-party packages that [keys.go] calls
    ([encoding/pem], [crypto/x509], [crypto/ecdsa], go-tuf's [encrypted],
    sigstore's [cryptoutils] and [signature]) are not part of the repository:
    they are taken as an interface ([Handles], [Lib]), and the contracts the
    theorems rely on are named propositions over that interface.  A small
    executable instance ([Toy]) shows that the contracts can be met together. *)

From Stdlib Require Import Strings.String Strings.Byte List Bool Arith Lia.
Import ListNotations.
Local Open Scope string_scope.

(** ** Go values: byte slices, errors, results, panics *)

Module Go.

Definition bytes := list byte.

(** Go [error] values.  A nil [error] is [None : option error]. *)
Inductive error : Type :=
| errors_New (msg : string)                      (* errors.New(msg) *)
| fmt_Errorf (msg : string)                      (* fmt.Errorf(...), formatted *)
| withMessage (cause : error) (msg : string).    (* what errors.Wrap builds *)

(** [github.com/pkg/errors]: "Wrap returns an error annotating err with a
    stack trace at the point Wrap is called, and the supplied message.  If
    err is nil, Wrap returns nil." *)
Definition errors_Wrap (err : option error) (msg : string) : option error :=
  match err with
  | None => None
  | Some e => Some (withMessage e msg)
  end.

(** What a library call of type [(T, error)] hands back: a value with a nil
    error, or a non-nil error. *)
Inductive result (T : Type) : Type :=
| ok (v : T)
| failed (err : error).
Arguments ok {T} v.
Arguments failed {T} err.

(** The Go pair (pointer to [T], [error]) of a library result. *)
Definition go_pair {T : Type} (r : result T) : option T * option error :=
  match r with
  | ok v => (Some v, None)
  | failed e => (None, Some e)
  end.

(** A call either returns or panics. *)
Inductive outcome (A : Type) : Type :=
| Return (a : A)
| Panic (msg : string).
Arguments Return {A} a.
Arguments Panic {A} msg.

Record pem_Block : Type := mkBlock {
  Type_ : string;
  Headers : list (string * string);
  Bytes : bytes
}.

Inductive elliptic_Curve : Type := P224 | P256 | P384 | P521.
Inductive crypto_Hash : Type := SHA1 | SHA256 | SHA384 | SHA512.

End Go.
Import Go.

(** ** The packages [keys.go] imports *)

(** Opaque key and signer handles, with the [PublicKey] field embedded in a
    private-key struct (what [priv.Public()] and [&priv.PublicKey] give). *)
Class Handles : Type := {
  rand_Reader : Type;
  rsa_PrivateKey : Type;
  rsa_PublicKey : Type;
  ecdsa_PrivateKey : Type;
  ecdsa_PublicKey : Type;
  ECDSASignerVerifier : Type;
  RSAPKCS1v15SignerVerifier : Type;
  rsa_Public : rsa_PrivateKey -> rsa_PublicKey;
  ecdsa_Public : ecdsa_PrivateKey -> ecdsa_PublicKey
}.

Section Interfaces.
Context {H : Handles}.

(** [crypto.PrivateKey] is [any]; these are the dynamic types that the x509
    PKCS #8 codec knows. *)
Inductive crypto_PrivateKey : Type :=
| rsa_priv (k : rsa_PrivateKey)        (* *rsa.PrivateKey *)
| ecdsa_priv (k : ecdsa_PrivateKey)    (* *ecdsa.PrivateKey *)
| ed25519_priv (k : bytes).            (* ed25519.PrivateKey *)

Inductive crypto_PublicKey : Type :=
| rsa_pub (k : rsa_PublicKey)          (* *rsa.PublicKey *)
| ecdsa_pub (k : ecdsa_PublicKey)      (* *ecdsa.PublicKey *)
| ed25519_pub (k : bytes).             (* ed25519.PublicKey *)

(** A value of interface type [signature.SignerVerifier]: a dynamic type with
    a pointer that may itself be nil.  The nil interface is [None] at type
    [option SignerVerifier]. *)
Inductive SignerVerifier : Type :=
| sv_ECDSA (p : option ECDSASignerVerifier)
| sv_RSA (p : option RSAPKCS1v15SignerVerifier).

End Interfaces.

Class Lib {H : Handles} : Type := {
  (* crypto/ecdsa, reading crypto/rand *)
  ecdsa_GenerateKey :
    elliptic_Curve -> rand_Reader -> result ecdsa_PrivateKey * rand_Reader;
  (* path/filepath *)
  filepath_Clean : string -> string;
  (* encoding/pem *)
  pem_Decode : bytes -> option pem_Block * bytes;
  pem_EncodeToMemory : pem_Block -> bytes;
  (* crypto/x509 *)
  x509_ParsePKCS1PrivateKey : bytes -> result rsa_PrivateKey;
  x509_ParseECPrivateKey : bytes -> result ecdsa_PrivateKey;
  x509_MarshalPKCS8PrivateKey : crypto_PrivateKey -> result bytes;
  x509_ParsePKCS8PrivateKey : bytes -> result crypto_PrivateKey;
  (* github.com/theupdateframework/go-tuf/encrypted; Encrypt draws a salt and
     a nonce from crypto/rand *)
  encrypted_Encrypt : bytes -> bytes -> rand_Reader -> result bytes * rand_Reader;
  encrypted_Decrypt : bytes -> bytes -> result bytes;
  (* github.com/sigstore/sigstore/pkg/cryptoutils *)
  cryptoutils_MarshalPublicKeyToPEM : crypto_PublicKey -> result bytes;
  cryptoutils_UnmarshalPEMToPublicKey : bytes -> result crypto_PublicKey;
  (* github.com/sigstore/sigstore/pkg/signature *)
  signature_LoadECDSASignerVerifier :
    ecdsa_PrivateKey -> crypto_Hash -> result ECDSASignerVerifier;
  signature_LoadRSAPKCS1v15SignerVerifier :
    rsa_PrivateKey -> crypto_Hash -> result RSAPKCS1v15SignerVerifier;
  (* signing with a loaded ECDSA signer/verifier, and checking a signature
     over a message against a public key under a digest *)
  ecdsa_SignMessage :
    ECDSASignerVerifier -> bytes -> rand_Reader -> result bytes * rand_Reader;
  ecdsa_VerifySignature :
    ecdsa_PublicKey -> crypto_Hash -> bytes -> bytes -> bool
}.

(** ** The world a call runs in, and the monad of calls *)

Section World.
Context {H : Handles}.

(** [pf_calls] logs every invocation of a passphrase callback, oldest
    first, by the argument it was given. *)
Record World : Type := mkWorld {
  rand : rand_Reader;
  os_files : string -> result bytes;
  pf_calls : list bool
}.

Definition M (A : Type) : Type := World -> outcome A * World.

Definition ret {A} (a : A) : M A := fun w => (Return a, w).

Definition bind {A B} (c : M A) (k : A -> M B) : M B :=
  fun w =>
    match c w with
    | (Return a, w') => k a w'
    | (Panic msg, w') => (Panic msg, w')
    end.

Definition panic {A} (msg : string) : M A := fun w => (Panic msg, w).

(** A library call that reads [crypto/rand.Reader]. *)
Definition with_rand {T} (f : rand_Reader -> T * rand_Reader) : M T :=
  fun w =>
    let '(v, r) := f (rand w) in
    (Return v, mkWorld r (os_files w) (pf_calls w)).

(** [os.ReadFile] *)
Definition os_ReadFile (name : string) : M (result bytes) :=
  fun w => (Return (os_files w name), w).

(** [type PassFunc func(bool) ([]byte, error)].  The callback is a closure:
    its answer may depend on the calls made to it before. *)
Definition PassFunc : Type := bool -> list bool -> result bytes.

Definition call_pf (pf : PassFunc) (b : bool) : M (result bytes) :=
  fun w =>
    (Return (pf b (pf_calls w)),
     mkWorld (rand w) (os_files w) (pf_calls w ++ [b])).

End World.

Declare Scope go_scope.
Delimit Scope go_scope with go.
Notation "x <- c ;; k" := (bind c (fun x => k))
  (at level 61, c at next level, right associativity) : go_scope.
Notation "' pat <- c ;; k" := (bind c (fun x => match x with pat => k end))
  (at level 61, pat pattern, c at next level, right associativity) : go_scope.
Local Open Scope go_scope.

(** ** [pkg/cosign/keys.go] *)

Module cosign.
Section Keys.
Context {H : Handles} {L : Lib}.

Definition PrivateKeyPemType : string := "ENCRYPTED COSIGN PRIVATE KEY".
Definition RSAPrivateKeyPemType : string := "RSA PRIVATE KEY".
Definition ECPrivateKeyPemType : string := "EC PRIVATE KEY".

Record Key : Type := mkKey {
  private : crypto_PrivateKey;
  public : crypto_PublicKey
}.

Record Keys : Type := mkKeys {
  PrivateBytes : bytes;
  PublicBytes : bytes;
  password : bytes
}.

Definition nil_dereference : string :=
  "runtime error: invalid memory address or nil pointer dereference".

Definition GeneratePrivateKey : M (option ecdsa_PrivateKey * option error) :=
  r <- with_rand (ecdsa_GenerateKey P256) ;;
  ret (go_pair r).

Definition MarshallKeyPair (keypair : Key) (pf : PassFunc)
  : M (option Keys * option error) :=
  match x509_MarshalPKCS8PrivateKey (private keypair) with
  | failed err => ret (None, errors_Wrap (Some err) "x509 encoding private key")
  | ok x509Encoded =>
    r <- call_pf pf true ;;
    match r with
    | failed err => ret (None, Some err)
    | ok password =>
      r <- with_rand (encrypted_Encrypt x509Encoded password) ;;
      match r with
      | failed err => ret (None, Some err)
      | ok encBytes =>
        let privBytes := pem_EncodeToMemory (mkBlock PrivateKeyPemType [] encBytes) in
        match cryptoutils_MarshalPublicKeyToPEM (public keypair) with
        | failed err => ret (None, Some err)
        | ok pubBytes => ret (Some (mkKeys privBytes pubBytes password), None)
        end
      end
    end
  end.

Definition ImportKeyPair (keyPath : string) (pf : PassFunc)
  : M (option Keys * option error) :=
  r <- os_ReadFile (filepath_Clean keyPath) ;;
  match r with
  | failed err => ret (None, Some err)
  | ok kb =>
    let '(p, _) := pem_Decode kb in
    match p with
    | None => ret (None, Some (errors_New "invalid pem block"))
    | Some p =>
      if negb (Type_ p =? RSAPrivateKeyPemType) && negb (Type_ p =? ECPrivateKeyPemType)
      then ret (None, Some (fmt_Errorf ("unsupported pem type: " ++ Type_ p)))
      else if Type_ p =? RSAPrivateKeyPemType then
        match x509_ParsePKCS1PrivateKey (Bytes p) with
        | failed _ => ret (None, Some (fmt_Errorf "parsing error"))
        | ok pk => MarshallKeyPair (mkKey (rsa_priv pk) (rsa_pub (rsa_Public pk))) pf
        end
      else
        match x509_ParseECPrivateKey (Bytes p) with
        | failed _ => ret (None, Some (fmt_Errorf "parsing error"))
        | ok pk => MarshallKeyPair (mkKey (ecdsa_priv pk) (ecdsa_pub (ecdsa_Public pk))) pf
        end
    end
  end.

Definition GenerateKeyPair (pf : PassFunc) : M (option Keys * option error) :=
  '(priv, err) <- GeneratePrivateKey ;;
  match err with
  | Some _ => ret (None, err)
  | None =>
    match priv with
    | None => panic nil_dereference
    | Some priv =>
      match x509_MarshalPKCS8PrivateKey (ecdsa_priv priv) with
      | failed err => ret (None, errors_Wrap (Some err) "x509 encoding private key")
      | ok x509Encoded =>
        r <- call_pf pf true ;;
        match r with
        | failed err => ret (None, Some err)
        | ok password =>
          r <- with_rand (encrypted_Encrypt x509Encoded password) ;;
          match r with
          | failed err => ret (None, Some err)
          | ok encBytes =>
            let privBytes :=
              pem_EncodeToMemory (mkBlock PrivateKeyPemType [] encBytes) in
            match cryptoutils_MarshalPublicKeyToPEM (ecdsa_pub (ecdsa_Public priv)) with
            | failed err => ret (None, Some err)
            | ok pubBytes => ret (Some (mkKeys privBytes pubBytes password), None)
            end
          end
        end
      end
    end
  end.

Definition Password (k : Keys) : bytes := password k.

(** The verb [%T] of [fmt]. *)
Definition type_name (pub : crypto_PublicKey) : string :=
  match pub with
  | rsa_pub _ => "*rsa.PublicKey"
  | ecdsa_pub _ => "*ecdsa.PublicKey"
  | ed25519_pub _ => "ed25519.PublicKey"
  end.

Definition PemToECDSAKey (pemBytes : bytes) : option ecdsa_PublicKey * option error :=
  match cryptoutils_UnmarshalPEMToPublicKey pemBytes with
  | failed err => (None, Some err)
  | ok (ecdsa_pub ecdsaPub) => (Some ecdsaPub, None)
  | ok pub =>
    (None, Some (fmt_Errorf ("invalid public key: was " ++ type_name pub
                             ++ ", require *ecdsa.PublicKey")))
  end.

Definition LoadECDSAPrivateKey (key pass : bytes)
  : M (option ECDSASignerVerifier * option error) :=
  let '(p, _) := pem_Decode key in
  match p with
  | None => ret (None, Some (errors_New "invalid pem block"))
  | Some p =>
    if negb (Type_ p =? PrivateKeyPemType)
    then ret (None, Some (fmt_Errorf ("unsupported pem type: " ++ Type_ p)))
    else
      match encrypted_Decrypt (Bytes p) pass with
      | failed err => ret (None, errors_Wrap (Some err) "decrypt")
      | ok x509Encoded =>
        match x509_ParsePKCS8PrivateKey x509Encoded with
        | failed err => ret (None, errors_Wrap (Some err) "parsing private key")
        | ok pk =>
          match pk with
          | ecdsa_priv epk => ret (go_pair (signature_LoadECDSASignerVerifier epk SHA256))
          | _ => ret (None, Some (errors_New "invalid private key"))
          end
        end
      end
  end.

Definition LoadRSAPrivateKey (key pass : bytes)
  : M (option RSAPKCS1v15SignerVerifier * option error) :=
  let '(p, _) := pem_Decode key in
  match p with
  | None => ret (None, Some (errors_New "invalid pem block"))
  | Some p =>
    if negb (Type_ p =? PrivateKeyPemType)
    then ret (None, Some (fmt_Errorf ("unsupported pem type: " ++ Type_ p)))
    else
      match encrypted_Decrypt (Bytes p) pass with
      | failed err => ret (None, errors_Wrap (Some err) "decrypt")
      | ok x509Encoded =>
        match x509_ParsePKCS8PrivateKey x509Encoded with
        | failed err => ret (None, errors_Wrap (Some err) "parsing private key")
        | ok pk =>
          (* pk.( *rsa.PrivateKey ): a type assertion without the ok form *)
          match pk with
          | rsa_priv rpk =>
            ret (go_pair (signature_LoadRSAPKCS1v15SignerVerifier rpk SHA256))
          | _ => panic "interface conversion: interface {} is not *rsa.PrivateKey"
          end
        end
      end
  end.

Definition LoadPrivateKey (key pass : bytes)
  : M (option SignerVerifier * option error) :=
  let '(p, _) := pem_Decode key in
  match p with
  | None => ret (None, Some (errors_New "invalid pem block"))
  | Some p =>
    if negb (Type_ p =? PrivateKeyPemType)
    then ret (None, Some (fmt_Errorf ("unsupported pem type: " ++ Type_ p)))
    else
      match encrypted_Decrypt (Bytes p) pass with
      | failed err => ret (None, errors_Wrap (Some err) "decrypt")
      | ok x509Encoded =>
        match x509_ParsePKCS8PrivateKey x509Encoded with
        | failed err => ret (None, errors_Wrap (Some err) "parsing private key")
        | ok pk =>
          (* past the check above, err is nil *)
          let err : option error := None in
          match pk with
          | rsa_priv _ =>
            '(sv, e) <- LoadRSAPrivateKey key pass ;;
            ret (Some (sv_RSA sv), e)
          | ecdsa_priv _ =>
            '(sv, e) <- LoadECDSAPrivateKey key pass ;;
            ret (Some (sv_ECDSA sv), e)
          | _ => ret (None, errors_Wrap err "loading private key")
          end
        end
      end
  end.

End Keys.
End cosign.

(** ** An executable instance of the imported packages

    Keys are single bytes, PEM framing is a tag byte followed by an escaped
    body, and "encryption" seals the passphrase next to the plaintext.  None of
    this is cryptography; it is a model of the interface in which every
    contract used below holds, and on which the code above can be run. *)

Module Toy.

Fixpoint bytes_eqb (a b : bytes) : bool :=
  match a, b with
  | [], [] => true
  | x :: a', y :: b' => Byte.eqb x y && bytes_eqb a' b'
  | _, _ => false
  end.

(** Escaped byte strings: every byte is preceded by [x01], the end is [x00]. *)
Fixpoint escape (bs : bytes) : bytes :=
  match bs with
  | [] => [x00]
  | b :: bs' => x01 :: b :: escape bs'
  end.

Fixpoint unescape (data : bytes) : option (bytes * bytes) :=
  match data with
  | m :: rest =>
    if Byte.eqb m x00 then Some ([], rest)
    else if Byte.eqb m x01 then
      match rest with
      | b :: rest' =>
        match unescape rest' with
        | Some (bs, tl) => Some (b :: bs, tl)
        | None => None
        end
      | [] => None
      end
    else None
  | [] => None
  end.

Definition tag_of_type (ty : string) : byte :=
  if ty =? cosign.PrivateKeyPemType then x01
  else if ty =? cosign.RSAPrivateKeyPemType then x02
  else if ty =? cosign.ECPrivateKeyPemType then x03
  else x04.

Definition type_of_tag (t : byte) : option string :=
  if Byte.eqb t x01 then Some cosign.PrivateKeyPemType
  else if Byte.eqb t x02 then Some cosign.RSAPrivateKeyPemType
  else if Byte.eqb t x03 then Some cosign.ECPrivateKeyPemType
  else if Byte.eqb t x04 then Some "CERTIFICATE"
  else None.

Definition encode (b : pem_Block) : bytes :=
  tag_of_type (Type_ b) :: escape (Bytes b).

Definition decode (data : bytes) : option pem_Block * bytes :=
  match data with
  | t :: body =>
    match type_of_tag t, unescape body with
    | Some ty, Some (bs, rest) => (Some (mkBlock ty [] bs), rest)
    | _, _ => (None, data)
    end
  | [] => (None, data)
  end.

(** The random source is a budget of draws; an exhausted source fails. *)
Definition draw {T} (v : T) (r : nat) : result T * nat :=
  match r with
  | O => (failed (errors_New "crypto/rand: no entropy"), O)
  | S r' => (ok v, r')
  end.

Definition key_of_seed (r : nat) : byte :=
  match Byte.of_nat r with
  | Some b => b
  | None => x2a
  end.

#[export] Instance handles : Handles := {|
  rand_Reader := nat;
  rsa_PrivateKey := byte;
  rsa_PublicKey := byte;
  ecdsa_PrivateKey := byte;
  ecdsa_PublicKey := byte;
  ECDSASignerVerifier := byte * crypto_Hash;
  RSAPKCS1v15SignerVerifier := byte * crypto_Hash;
  rsa_Public := fun k => k;
  ecdsa_Public := fun k => k
|}.

Definition marshal_private (k : crypto_PrivateKey) : result bytes :=
  match k with
  | rsa_priv k => ok [x01; k]
  | ecdsa_priv k => ok [x02; k]
  | ed25519_priv k => ok (x03 :: k)
  end.

Definition parse_private (der : bytes) : result crypto_PrivateKey :=
  match der with
  | t :: rest =>
    if Byte.eqb t x03 then ok (ed25519_priv rest)
    else match rest with
         | [k] => if Byte.eqb t x01 then ok (rsa_priv k)
                  else if Byte.eqb t x02 then ok (ecdsa_priv k)
                  else failed (errors_New "x509: failed to parse private key")
         | _ => failed (errors_New "x509: failed to parse private key")
         end
  | [] => failed (errors_New "x509: failed to parse private key")
  end.

Definition marshal_public (k : crypto_PublicKey) : result bytes :=
  match k with
  | rsa_pub k => ok [x01; k]
  | ecdsa_pub k => ok [x02; k]
  | ed25519_pub k => ok (x03 :: k)
  end.

Definition parse_public (der : bytes) : result crypto_PublicKey :=
  match der with
  | t :: rest =>
    if Byte.eqb t x03 then ok (ed25519_pub rest)
    else match rest with
         | [k] => if Byte.eqb t x01 then ok (rsa_pub k)
                  else if Byte.eqb t x02 then ok (ecdsa_pub k)
                  else failed (errors_New "PEM decoding failed")
         | _ => failed (errors_New "PEM decoding failed")
         end
  | [] => failed (errors_New "PEM decoding failed")
  end.

Definition parse_single (der : bytes) : result byte :=
  match der with
  | [k] => ok k
  | _ => failed (errors_New "x509: malformed key")
  end.

Definition seal (plaintext passphrase : bytes) (r : nat) : result bytes * nat :=
  draw (escape passphrase ++ plaintext)%list r.

Definition unseal (ciphertext passphrase : bytes) : result bytes :=
  match unescape ciphertext with
  | Some (p, plaintext) =>
    if bytes_eqb p passphrase then ok plaintext
    else failed (errors_New "encrypted: decryption failed")
  | None => failed (errors_New "encrypted: decryption failed")
  end.

#[export] Instance lib : Lib := {|
  ecdsa_GenerateKey := fun _ r => draw (key_of_seed r) r;
  filepath_Clean := fun p => p;
  pem_Decode := decode;
  pem_EncodeToMemory := encode;
  x509_ParsePKCS1PrivateKey := parse_single;
  x509_ParseECPrivateKey := parse_single;
  x509_MarshalPKCS8PrivateKey := marshal_private;
  x509_ParsePKCS8PrivateKey := parse_private;
  encrypted_Encrypt := seal;
  encrypted_Decrypt := unseal;
  cryptoutils_MarshalPublicKeyToPEM := marshal_public;
  cryptoutils_UnmarshalPEMToPublicKey := parse_public;
  signature_LoadECDSASignerVerifier := fun k h => ok (k, h);
  signature_LoadRSAPKCS1v15SignerVerifier := fun k h => ok (k, h);
  ecdsa_SignMessage := fun sv msg r => (ok (fst sv :: msg), r);
  ecdsa_VerifySignature := fun pub _ sig msg => bytes_eqb sig (pub :: msg)
|}.

(** A callback that always answers with the same passphrase, one that the
    user cancels, and a world with a given entropy budget and one file. *)
Definition constant_pf (p : bytes) : PassFunc := fun _ _ => ok p.
Definition cancelled_pf : PassFunc := fun _ _ => failed (errors_New "cancelled").

Definition world (budget : nat) (name : string) (content : bytes) : World :=
  mkWorld (budget : rand_Reader)
          (fun n => if n =? name then ok content
                    else failed (errors_New "no such file or directory"))
          [].

Definition hunter2 : bytes := [x68; x75; x6e; x74; x65; x72; x32].
Definition letmein : bytes := [x6c; x65; x74; x6d; x65; x69; x6e].

(** Sample inputs: the bundle [GenerateKeyPair] makes from an entropy
    budget of two draws, a bundle holding an Ed25519 key, a plain RSA key
    file, and a [Key] whose public handle belongs to another key. *)
Definition ec_bundle : cosign.Keys :=
  cosign.mkKeys
    (encode (mkBlock cosign.PrivateKeyPemType [] (escape hunter2 ++ [x02; x02])%list))
    [x02; x02] hunter2.

Definition ed25519_bundle : bytes :=
  encode (mkBlock cosign.PrivateKeyPemType []
                  (escape hunter2 ++ [x03; x07; x08])%list).

Definition rsa_plain : bytes :=
  encode (mkBlock cosign.RSAPrivateKeyPemType [] [x11]).

Definition mismatched : cosign.Key :=
  cosign.mkKey (rsa_priv x11) (ecdsa_pub x22).

End Toy.

(** ** Contracts of the imported packages, and notions used in the statements *)

Section Contracts.
Context {H : Handles} {L : Lib}.
Import cosign.

(** [pem.Decode] reads back a header-less block written by
    [pem.EncodeToMemory] under the cosign tag. *)
Definition pem_roundtrip : Prop :=
  forall body,
    fst (pem_Decode (pem_EncodeToMemory (mkBlock PrivateKeyPemType [] body)))
    = Some (mkBlock PrivateKeyPemType [] body).

(** [encrypted.Decrypt] inverts [encrypted.Encrypt] under the same passphrase. *)
Definition decrypt_inverts_encrypt : Prop :=
  forall plaintext passphrase r c r',
    encrypted_Encrypt plaintext passphrase r = (ok c, r') ->
    encrypted_Decrypt c passphrase = ok plaintext.


(** PKCS #8 is self-describing: parsing gives back the key that was encoded,
    with its dynamic type. *)
Definition pkcs8_roundtrip : Prop :=
  forall k der,
    x509_MarshalPKCS8PrivateKey k = ok der ->
    x509_ParsePKCS8PrivateKey der = ok k.

Definition public_pem_roundtrip : Prop :=
  forall pub pemBytes,
    cryptoutils_MarshalPublicKeyToPEM pub = ok pemBytes ->
    cryptoutils_UnmarshalPEMToPublicKey pemBytes = ok pub.

(** SHA-256 is linked in ([_ "crypto/sha256"]), so a signer/verifier can be
    built from any ECDSA key. *)
Definition ecdsa_signer_loads : Prop :=
  forall k, exists sv, signature_LoadECDSASignerVerifier k SHA256 = ok sv.

(** Correctness of ECDSA: what a signer/verifier built from [k] signs
    verifies against the public key of [k] under the same digest. *)
Definition ecdsa_signatures_verify : Prop :=
  forall k h sv msg r sig r',
    signature_LoadECDSASignerVerifier k h = ok sv ->
    ecdsa_SignMessage sv msg r = (ok sig, r') ->
    ecdsa_VerifySignature (ecdsa_Public k) h sig msg = true.

(** The public key derived from a private key ([pk.Public()]). *)
Definition derived_public (k : crypto_PrivateKey) : option crypto_PublicKey :=
  match k with
  | rsa_priv k => Some (rsa_pub (rsa_Public k))
  | ecdsa_priv k => Some (ecdsa_pub (ecdsa_Public k))
  | ed25519_priv _ => None
  end.

(** [key] is the PEM framing, under the cosign tag, of an encryption of
    [plaintext] under [passphrase]. *)
Definition encrypted_under (key plaintext passphrase : bytes) : Prop :=
  exists r c r',
    encrypted_Encrypt plaintext passphrase r = (ok c, r') /\
    key = pem_EncodeToMemory (mkBlock PrivateKeyPemType [] c).

(** The bundle [ks] carries the encryption of private key [k] under the
    passphrase it re-exposes. *)
Definition carries (ks : Keys) (k : crypto_PrivateKey) : Prop :=
  exists der,
    x509_MarshalPKCS8PrivateKey k = ok der /\
    encrypted_under (PrivateBytes ks) der (Password ks).

(** Steps 2 and 3 of the importer: the private key that a plain PEM block
    holds, by its tag. *)
Definition plain_key (p : pem_Block) : option crypto_PrivateKey :=
  if Type_ p =? RSAPrivateKeyPemType then
    match x509_ParsePKCS1PrivateKey (Bytes p) with
    | ok pk => Some (rsa_priv pk)
    | failed _ => None
    end
  else if Type_ p =? ECPrivateKeyPemType then
    match x509_ParseECPrivateKey (Bytes p) with
    | ok pk => Some (ecdsa_priv pk)
    | failed _ => None
    end
  else None.

(** The encoder's success condition as the specification words it: both
    handles serialize and the callback answers. *)
Definition encoder_succeeds_as_stated (kp : Key) (pf : PassFunc) (w : World) : Prop :=
  forall der pubBytes p,
    x509_MarshalPKCS8PrivateKey (private kp) = ok der ->
    cryptoutils_MarshalPublicKeyToPEM (public kp) = ok pubBytes ->
    pf true (pf_calls w) = ok p ->
    exists ks w',
      MarshallKeyPair kp pf w = (Return (Some ks, None), w') /\
      PublicBytes ks = pubBytes.

End Contracts.


(** The same packages with other serializers for private and public keys. *)
Definition with_Marshal {H : Handles}
           (mpriv : crypto_PrivateKey -> result bytes)
           (mpub : crypto_PublicKey -> result bytes) (L : Lib) : Lib :=
  {| ecdsa_GenerateKey := ecdsa_GenerateKey;
     filepath_Clean := filepath_Clean;
     pem_Decode := pem_Decode;
     pem_EncodeToMemory := pem_EncodeToMemory;
     x509_ParsePKCS1PrivateKey := x509_ParsePKCS1PrivateKey;
     x509_ParseECPrivateKey := x509_ParseECPrivateKey;
     x509_MarshalPKCS8PrivateKey := mpriv;
     x509_ParsePKCS8PrivateKey := x509_ParsePKCS8PrivateKey;
     encrypted_Encrypt := encrypted_Encrypt;
     encrypted_Decrypt := encrypted_Decrypt;
     cryptoutils_MarshalPublicKeyToPEM := mpub;
     cryptoutils_UnmarshalPEMToPublicKey := cryptoutils_UnmarshalPEMToPublicKey;
     signature_LoadECDSASignerVerifier := signature_LoadECDSASignerVerifier;
     signature_LoadRSAPKCS1v15SignerVerifier := signature_LoadRSAPKCS1v15SignerVerifier;
     ecdsa_SignMessage := ecdsa_SignMessage;
     ecdsa_VerifySignature := ecdsa_VerifySignature |}.

(** A Go pair (value, error) of which exactly one component is non-nil. *)
Definition exactly_one {A B : Type} (r : option A * option B) : Prop :=
  match r with
  | (Some _, None) | (None, Some _) => True
  | _ => False
  end.

(** A stricter build of the toy packages, whose serializers refuse Ed25519
    keys, and more sample inputs. *)
Module ToyVariants.
Import Toy.

Definition picky_private (k : crypto_PrivateKey) : result bytes :=
  match k with
  | ed25519_priv _ => failed (errors_New "x509: unknown key type while marshaling PKCS#8")
  | _ => marshal_private k
  end.

Definition picky_public (k : crypto_PublicKey) : result bytes :=
  match k with
  | ed25519_pub _ => failed (errors_New "unsupported public key type")
  | _ => marshal_public k
  end.

Definition picky : Lib := with_Marshal picky_private picky_public lib.

Definition ed25519_key : cosign.Key :=
  cosign.mkKey (ed25519_priv [x07; x08]) (ed25519_pub [x09]).

Definition rsa_with_ed25519_public : cosign.Key :=
  cosign.mkKey (rsa_priv x11) (ed25519_pub [x09]).

Definition ec_plain : bytes :=
  encode (mkBlock cosign.ECPrivateKeyPemType [] [x33]).

Definition rsa_malformed : bytes :=
  encode (mkBlock cosign.RSAPrivateKeyPemType [] [x11; x12]).

Definition certificate : bytes :=
  encode (mkBlock "CERTIFICATE" [] [x30]).

(** The bundle [ImportKeyPair] makes of [rsa_plain]. *)
Definition rsa_bundle : cosign.Keys :=
  cosign.mkKeys
    (encode (mkBlock cosign.PrivateKeyPemType [] (escape hunter2 ++ [x01; x11])%list))
    [x01; x11] hunter2.

End ToyVariants.

Ltac run_go :=
  unfold bind, ret, panic, call_pf, with_rand, os_ReadFile in *; cbn [fst snd] in *.

Ltac inv_pair E := injection E; clear E; intros; subst.

(** * Properties *)

(** ** The toy packages meet the contracts *)

Module ToyFacts.
Import Toy cosign.

Lemma bytes_eqb_refl (a : bytes) : bytes_eqb a a = true.
Proof.
  induction a as [|x a IH]; simpl; [reflexivity|].
  rewrite (@Byte.byte_dec_lb x x eq_refl), IH. reflexivity.
Qed.


Lemma unescape_escape (bs tl : bytes) :
  unescape (escape bs ++ tl)%list = Some (bs, tl).
Proof.
  induction bs as [|b bs IH]; simpl; [reflexivity|].
  rewrite IH. reflexivity.
Qed.

Lemma pem_roundtrip_holds : pem_roundtrip.
Proof.
  intros body. cbn.
  rewrite <- (app_nil_r (escape body)), unescape_escape. reflexivity.
Qed.

Lemma decrypt_inverts_encrypt_holds : decrypt_inverts_encrypt.
Proof.
  intros plaintext passphrase [|r] c r' E; cbn in E; [discriminate|].
  injection E as <- _. cbn. unfold unseal.
  rewrite unescape_escape, bytes_eqb_refl. reflexivity.
Qed.


Lemma pkcs8_roundtrip_holds : pkcs8_roundtrip.
Proof.
  intros [k|k|k] der E; cbn in E; injection E as <-; reflexivity.
Qed.

Lemma public_pem_roundtrip_holds : public_pem_roundtrip.
Proof.
  intros [k|k|k] der E; cbn in E; injection E as <-; reflexivity.
Qed.

Lemma ecdsa_signer_loads_holds : ecdsa_signer_loads.
Proof. intros k. eexists. reflexivity. Qed.

Lemma ecdsa_signatures_verify_holds : ecdsa_signatures_verify.
Proof.
  intros k h sv msg r sig r' E1 E2. cbn in *.
  injection E1 as <-. injection E2 as <- _. cbn.
  rewrite (@Byte.byte_dec_lb k k eq_refl), bytes_eqb_refl. reflexivity.
Qed.

End ToyFacts.

(** ** How the encoder paths run *)

Section EncoderFacts.
Context {H : Handles} {L : Lib}.
Import cosign.

(** A bundle comes out of [MarshallKeyPair] only along the one successful
    path, and every step of that path can be read off the bundle. *)
Lemma MarshallKeyPair_success (kp : Key) (pf : PassFunc) (w w' : World)
      (ks : Keys) (e : option error) :
  MarshallKeyPair kp pf w = (Return (Some ks, e), w') ->
  exists der c r',
    x509_MarshalPKCS8PrivateKey (private kp) = ok der /\
    pf true (pf_calls w) = ok (Password ks) /\
    encrypted_Encrypt der (Password ks) (rand w) = (ok c, r') /\
    PrivateBytes ks = pem_EncodeToMemory (mkBlock PrivateKeyPemType [] c) /\
    cryptoutils_MarshalPublicKeyToPEM (public kp) = ok (PublicBytes ks) /\
    e = None /\
    w' = mkWorld r' (os_files w) (pf_calls w ++ [true]).
Proof.
  unfold MarshallKeyPair. intros E.
  destruct (x509_MarshalPKCS8PrivateKey (private kp)) as [der|err] eqn:E1;
    run_go; [|discriminate].
  destruct (pf true (pf_calls w)) as [p|err] eqn:E2; [|discriminate].
  cbn in E.
  destruct (encrypted_Encrypt der p (rand w)) as [[c|err] r'] eqn:E3;
    [|discriminate].
  destruct (cryptoutils_MarshalPublicKeyToPEM (public kp)) as [pb|err] eqn:E4;
    [|discriminate].
  inv_pair E. exists der, c, r'. cbn. auto 10.
Qed.

(** The run of [MarshallKeyPair] once its four fallible steps are known to
    succeed. *)
Lemma MarshallKeyPair_run (kp : Key) (pf : PassFunc) (w : World)
      (der p c pubBytes : bytes) (r' : rand_Reader) :
  x509_MarshalPKCS8PrivateKey (private kp) = ok der ->
  pf true (pf_calls w) = ok p ->
  encrypted_Encrypt der p (rand w) = (ok c, r') ->
  cryptoutils_MarshalPublicKeyToPEM (public kp) = ok pubBytes ->
  MarshallKeyPair kp pf w
  = (Return (Some (mkKeys (pem_EncodeToMemory (mkBlock PrivateKeyPemType [] c))
                          pubBytes p), None),
     mkWorld r' (os_files w) (pf_calls w ++ [true])).
Proof.
  intros E1 E2 E3 E4. unfold MarshallKeyPair. rewrite E1. run_go.
  rewrite E2. cbn. rewrite E3, E4. reflexivity.
Qed.

(** The same for [GenerateKeyPair], which repeats the encoder inline on the
    key it has just generated. *)
Lemma GenerateKeyPair_success (pf : PassFunc) (w w' : World)
      (ks : Keys) (e : option error) :
  GenerateKeyPair pf w = (Return (Some ks, e), w') ->
  exists priv r1 der c r2,
    ecdsa_GenerateKey P256 (rand w) = (ok priv, r1) /\
    x509_MarshalPKCS8PrivateKey (ecdsa_priv priv) = ok der /\
    pf true (pf_calls w) = ok (Password ks) /\
    encrypted_Encrypt der (Password ks) r1 = (ok c, r2) /\
    PrivateBytes ks = pem_EncodeToMemory (mkBlock PrivateKeyPemType [] c) /\
    cryptoutils_MarshalPublicKeyToPEM (ecdsa_pub (ecdsa_Public priv))
    = ok (PublicBytes ks) /\
    e = None /\
    w' = mkWorld r2 (os_files w) (pf_calls w ++ [true]).
Proof.
  unfold GenerateKeyPair, GeneratePrivateKey. run_go. intros E.
  destruct (ecdsa_GenerateKey P256 (rand w)) as [[priv|err] r1] eqn:E0;
    cbn in E; [|discriminate].
  destruct (x509_MarshalPKCS8PrivateKey (ecdsa_priv priv)) as [der|err] eqn:E1;
    [|discriminate].
  cbn in E.
  destruct (pf true (pf_calls w)) as [p|err] eqn:E2; [|discriminate].
  cbn in E.
  destruct (encrypted_Encrypt der p r1) as [[c|err] r2] eqn:E3; [|discriminate].
  destruct (cryptoutils_MarshalPublicKeyToPEM (ecdsa_pub (ecdsa_Public priv)))
    as [pb|err] eqn:E4; [|discriminate].
  inv_pair E. exists priv, r1, der, c, r2. cbn. auto 10.
Qed.

(** [ImportKeyPair] hands a bundle back only by way of [MarshallKeyPair], on
    a [Key] whose public handle it derived from the parsed private key. *)
Lemma ImportKeyPair_success (keyPath : string) (pf : PassFunc) (w w' : World)
      (ks : Keys) (e : option error) :
  ImportKeyPair keyPath pf w = (Return (Some ks, e), w') ->
  exists priv pub,
    derived_public priv = Some pub /\
    MarshallKeyPair (mkKey priv pub) pf w = (Return (Some ks, e), w').
Proof.
  unfold ImportKeyPair. run_go. intros E.
  destruct (os_files w (filepath_Clean keyPath)) as [kb|err]; [|discriminate].
  destruct (pem_Decode kb) as [[p|] rest]; [|discriminate].
  destruct (negb (Type_ p =? RSAPrivateKeyPemType)
            && negb (Type_ p =? ECPrivateKeyPemType)); [discriminate|].
  destruct (Type_ p =? RSAPrivateKeyPemType).
  - destruct (x509_ParsePKCS1PrivateKey (Bytes p)) as [pk|err]; [|discriminate].
    exists (rsa_priv pk), (rsa_pub (rsa_Public pk)). auto.
  - destruct (x509_ParseECPrivateKey (Bytes p)) as [pk|err]; [|discriminate].
    exists (ecdsa_priv pk), (ecdsa_pub (ecdsa_Public pk)). auto.
Qed.

(** What either encoder path returns is, in the sense of [carries], the
    encryption of the private key it was given under the passphrase the
    bundle re-exposes. *)
Lemma MarshallKeyPair_carries (kp : Key) (pf : PassFunc) (w w' : World)
      (ks : Keys) (e : option error) :
  MarshallKeyPair kp pf w = (Return (Some ks, e), w') ->
  carries ks (private kp).
Proof.
  intros E.
  destruct (MarshallKeyPair_success kp pf w w' ks e E)
    as (der & c & r' & E1 & _ & E3 & E4 & _).
  exists der. split; [exact E1|]. exists (rand w), c, r'. auto.
Qed.

Lemma GenerateKeyPair_carries (pf : PassFunc) (w w' : World)
      (ks : Keys) (e : option error) :
  GenerateKeyPair pf w = (Return (Some ks, e), w') ->
  exists priv r1,
    ecdsa_GenerateKey P256 (rand w) = (ok priv, r1) /\
    carries ks (ecdsa_priv priv).
Proof.
  intros E.
  destruct (GenerateKeyPair_success pf w w' ks e E)
    as (priv & r1 & der & c & r2 & E0 & E1 & _ & E3 & E4 & _).
  exists priv, r1. split; [exact E0|].
  exists der. split; [exact E1|]. exists r1, c, r2. auto.
Qed.

End EncoderFacts.

(** ** How the loaders run *)

Section LoaderFacts.
Context {H : Handles} {L : Lib}.
Import cosign.

Lemma tag_matches (p : pem_Block) :
  Type_ p = PrivateKeyPemType -> negb (Type_ p =? PrivateKeyPemType) = false.
Proof. intros ->. reflexivity. Qed.


(** The three loaders share their first four steps; past them, each is
    decided by the dynamic type of the parsed key. *)
Lemma LoadECDSAPrivateKey_parsed (key pass der : bytes) (p : pem_Block)
      (pk : crypto_PrivateKey) (w : World) :
  fst (pem_Decode key) = Some p ->
  Type_ p = PrivateKeyPemType ->
  encrypted_Decrypt (Bytes p) pass = ok der ->
  x509_ParsePKCS8PrivateKey der = ok pk ->
  LoadECDSAPrivateKey key pass w
  = match pk with
    | ecdsa_priv epk =>
      (Return (go_pair (signature_LoadECDSASignerVerifier epk SHA256)), w)
    | _ => (Return (None, Some (errors_New "invalid private key")), w)
    end.
Proof.
  intros E1 E2 E3 E4. unfold LoadECDSAPrivateKey.
  destruct (pem_Decode key) as [p' rest]. cbn in E1. subst p'.
  rewrite (tag_matches _ E2), E3, E4. destruct pk; reflexivity.
Qed.

Lemma LoadRSAPrivateKey_parsed (key pass der : bytes) (p : pem_Block)
      (pk : crypto_PrivateKey) (w : World) :
  fst (pem_Decode key) = Some p ->
  Type_ p = PrivateKeyPemType ->
  encrypted_Decrypt (Bytes p) pass = ok der ->
  x509_ParsePKCS8PrivateKey der = ok pk ->
  LoadRSAPrivateKey key pass w
  = match pk with
    | rsa_priv rpk =>
      (Return (go_pair (signature_LoadRSAPKCS1v15SignerVerifier rpk SHA256)), w)
    | _ => (Panic "interface conversion: interface {} is not *rsa.PrivateKey", w)
    end.
Proof.
  intros E1 E2 E3 E4. unfold LoadRSAPrivateKey.
  destruct (pem_Decode key) as [p' rest]. cbn in E1. subst p'.
  rewrite (tag_matches _ E2), E3, E4. destruct pk; reflexivity.
Qed.

Lemma LoadPrivateKey_parsed (key pass der : bytes) (p : pem_Block)
      (pk : crypto_PrivateKey) (w : World) :
  fst (pem_Decode key) = Some p ->
  Type_ p = PrivateKeyPemType ->
  encrypted_Decrypt (Bytes p) pass = ok der ->
  x509_ParsePKCS8PrivateKey der = ok pk ->
  LoadPrivateKey key pass w
  = match pk with
    | rsa_priv rpk =>
      let '(sv, e) := go_pair (signature_LoadRSAPKCS1v15SignerVerifier rpk SHA256) in
      (Return (Some (sv_RSA sv), e), w)
    | ecdsa_priv epk =>
      let '(sv, e) := go_pair (signature_LoadECDSASignerVerifier epk SHA256) in
      (Return (Some (sv_ECDSA sv), e), w)
    | ed25519_priv _ => (Return (None, None), w)
    end.
Proof.
  intros E1 E2 E3 E4.
  pose proof (LoadRSAPrivateKey_parsed key pass der p pk w E1 E2 E3 E4) as ER.
  pose proof (LoadECDSAPrivateKey_parsed key pass der p pk w E1 E2 E3 E4) as EE.
  unfold LoadPrivateKey.
  destruct (pem_Decode key) as [p' rest]. cbn in E1. subst p'.
  rewrite (tag_matches _ E2), E3, E4.
  destruct pk; run_go; [rewrite ER | rewrite EE | reflexivity].
  - destruct (go_pair _); reflexivity.
  - destruct (go_pair _); reflexivity.
Qed.


(** None of the loaders touches the world: no callback is invoked, no
    randomness drawn. *)
Lemma LoadECDSAPrivateKey_world (key pass : bytes) (w : World) :
  snd (LoadECDSAPrivateKey key pass w) = w.
Proof.
  unfold LoadECDSAPrivateKey.
  destruct (pem_Decode key) as [[p|] rest]; [|reflexivity].
  destruct (negb _); [reflexivity|].
  destruct (encrypted_Decrypt _ _); [|reflexivity].
  destruct (x509_ParsePKCS8PrivateKey _) as [[k|k|k]|]; reflexivity.
Qed.

Lemma LoadRSAPrivateKey_world (key pass : bytes) (w : World) :
  snd (LoadRSAPrivateKey key pass w) = w.
Proof.
  unfold LoadRSAPrivateKey.
  destruct (pem_Decode key) as [[p|] rest]; [|reflexivity].
  destruct (negb _); [reflexivity|].
  destruct (encrypted_Decrypt _ _); [|reflexivity].
  destruct (x509_ParsePKCS8PrivateKey _) as [[k|k|k]|]; reflexivity.
Qed.

Lemma LoadPrivateKey_world (key pass : bytes) (w : World) :
  snd (LoadPrivateKey key pass w) = w.
Proof.
  pose proof (LoadRSAPrivateKey_world key pass w) as ER.
  pose proof (LoadECDSAPrivateKey_world key pass w) as EE.
  unfold LoadPrivateKey.
  destruct (pem_Decode key) as [[p|] rest]; [|reflexivity].
  destruct (negb _); [reflexivity|].
  destruct (encrypted_Decrypt _ _); [|reflexivity].
  destruct (x509_ParsePKCS8PrivateKey _) as [[k|k|k]|]; try reflexivity; run_go.
  - destruct (LoadRSAPrivateKey key pass w) as [[[sv e]|msg] w1]; exact ER.
  - destruct (LoadECDSAPrivateKey key pass w) as [[[sv e]|msg] w1]; exact EE.
Qed.

End LoaderFacts.

(** ** The loader on its inputs *)

Section LoaderClaims.
Context {H : Handles} {L : Lib}.
Import cosign.

(** C1.  The specification asks [LoadPrivateKey] to reject, with a non-nil
    error, a well-framed payload that decrypts and parses to a key that is
    neither RSA nor elliptic-curve.  The code falls out of its type switch
    into [errors.Wrap(err, "loading private key")] with [err] nil, and
    [errors.Wrap] of nil is nil: the call returns a nil signer/verifier
    together with a nil error. *)
Theorem LoadPrivateKey_unsupported_key_returns_nil_nil
        (key pass der k : bytes) (p : pem_Block) (w : World) :
  fst (pem_Decode key) = Some p ->
  Type_ p = PrivateKeyPemType ->
  encrypted_Decrypt (Bytes p) pass = ok der ->
  x509_ParsePKCS8PrivateKey der = ok (ed25519_priv k) ->
  LoadPrivateKey key pass w = (Return (None, None), w).
Proof.
  intros E1 E2 E3 E4.
  rewrite (LoadPrivateKey_parsed key pass der p _ w E1 E2 E3 E4). reflexivity.
Qed.

(** C2.  The specification asks both narrow entry points to answer a key of
    the other algorithm with an error.  [LoadECDSAPrivateKey] does;
    [LoadRSAPrivateKey] asserts the dynamic type without the two-value form
    and panics on every well-framed, decryptable, non-RSA payload. *)
Theorem LoadRSAPrivateKey_panics_on_other_algorithm
        (key pass der : bytes) (p : pem_Block) (pk : crypto_PrivateKey) (w : World) :
  fst (pem_Decode key) = Some p ->
  Type_ p = PrivateKeyPemType ->
  encrypted_Decrypt (Bytes p) pass = ok der ->
  x509_ParsePKCS8PrivateKey der = ok pk ->
  (forall rpk, pk <> rsa_priv rpk) ->
  (exists msg, LoadRSAPrivateKey key pass w = (Panic msg, w)) /\
  (forall out, LoadRSAPrivateKey key pass w <> (Return out, w)).
Proof.
  intros E1 E2 E3 E4 Hne.
  rewrite (LoadRSAPrivateKey_parsed key pass der p pk w E1 E2 E3 E4).
  destruct pk as [rpk|epk|k].
  - exfalso. apply (Hne rpk). reflexivity.
  - split; [eexists; reflexivity | intros out; discriminate].
  - split; [eexists; reflexivity | intros out; discriminate].
Qed.

(** The sibling entry point does what the specification says: a key that is
    not elliptic-curve is answered with an error, without a panic. *)
Lemma LoadECDSAPrivateKey_rejects_other_algorithm
      (key pass der : bytes) (p : pem_Block) (pk : crypto_PrivateKey) (w : World) :
  fst (pem_Decode key) = Some p ->
  Type_ p = PrivateKeyPemType ->
  encrypted_Decrypt (Bytes p) pass = ok der ->
  x509_ParsePKCS8PrivateKey der = ok pk ->
  (forall epk, pk <> ecdsa_priv epk) ->
  LoadECDSAPrivateKey key pass w
  = (Return (None, Some (errors_New "invalid private key")), w).
Proof.
  intros E1 E2 E3 E4 Hne.
  rewrite (LoadECDSAPrivateKey_parsed key pass der p pk w E1 E2 E3 E4).
  destruct pk as [rpk|epk|k]; try reflexivity.
  exfalso. apply (Hne epk). reflexivity.
Qed.



End LoaderClaims.

(** ** The encoder paths and the bundles they make *)

Section EncoderClaims.
Context {H : Handles} {L : Lib}.
Import cosign.

(** Past reading the file and parsing the plain key, the importer is the
    encoder applied to the parsed key and its derived public key. *)
Lemma ImportKeyPair_run (keyPath : string) (pf : PassFunc) (w : World)
      (kb : bytes) (p : pem_Block) (priv : crypto_PrivateKey) :
  os_files w (filepath_Clean keyPath) = ok kb ->
  fst (pem_Decode kb) = Some p ->
  plain_key p = Some priv ->
  exists pub,
    derived_public priv = Some pub /\
    ImportKeyPair keyPath pf w = MarshallKeyPair (mkKey priv pub) pf w.
Proof.
  intros E1 E2 E3. unfold ImportKeyPair, plain_key in *. run_go. rewrite E1.
  destruct (pem_Decode kb) as [p' rest]. cbn in E2. subst p'.
  destruct (Type_ p =? RSAPrivateKeyPemType); cbn [negb andb].
  - destruct (x509_ParsePKCS1PrivateKey (Bytes p)) as [pk|]; [|discriminate].
    inv_pair E3. eexists. split; reflexivity.
  - destruct (Type_ p =? ECPrivateKeyPemType); cbn [negb]; [|discriminate].
    destruct (x509_ParseECPrivateKey (Bytes p)) as [pk|]; [|discriminate].
    inv_pair E3. eexists. split; reflexivity.
Qed.


(** C7.  Whenever an encoder path reaches its passphrase step, the callback
    log grows by exactly one entry, [true]: [MarshallKeyPair] once the
    private key is serialized, [GenerateKeyPair] once the key is generated
    and serialized, [ImportKeyPair] by way of [MarshallKeyPair] once the
    plain key is parsed.  The three loaders leave the world as it is: they
    invoke no callback. *)
Theorem passphrase_callback_called_once (pf : PassFunc) (w : World) :
  (forall kp der,
      x509_MarshalPKCS8PrivateKey (private kp) = ok der ->
      pf_calls (snd (MarshallKeyPair kp pf w)) = (pf_calls w ++ [true])%list)
  /\
  (forall priv r1 der,
      ecdsa_GenerateKey P256 (rand w) = (ok priv, r1) ->
      x509_MarshalPKCS8PrivateKey (ecdsa_priv priv) = ok der ->
      pf_calls (snd (GenerateKeyPair pf w)) = (pf_calls w ++ [true])%list)
  /\
  (forall keyPath kb p priv der,
      os_files w (filepath_Clean keyPath) = ok kb ->
      fst (pem_Decode kb) = Some p ->
      plain_key p = Some priv ->
      x509_MarshalPKCS8PrivateKey priv = ok der ->
      pf_calls (snd (ImportKeyPair keyPath pf w)) = (pf_calls w ++ [true])%list)
  /\
  (forall key pass,
      snd (LoadPrivateKey key pass w) = w /\
      snd (LoadECDSAPrivateKey key pass w) = w /\
      snd (LoadRSAPrivateKey key pass w) = w).
Proof.
  assert (HM : forall kp der,
             x509_MarshalPKCS8PrivateKey (private kp) = ok der ->
             pf_calls (snd (MarshallKeyPair kp pf w)) = (pf_calls w ++ [true])%list).
  { intros kp der E1. unfold MarshallKeyPair. rewrite E1. run_go.
    destruct (pf true (pf_calls w)) as [pw|err]; cbn; [|reflexivity].
    destruct (encrypted_Encrypt der pw (rand w)) as [[c|err] r']; cbn;
      [|reflexivity].
    destruct (cryptoutils_MarshalPublicKeyToPEM (public kp)); reflexivity. }
  split; [exact HM|]. split; [|split].
  - intros priv r1 der E0 E1.
    unfold GenerateKeyPair, GeneratePrivateKey. run_go. rewrite E0. cbn.
    rewrite E1. cbn.
    destruct (pf true (pf_calls w)) as [pw|err]; cbn; [|reflexivity].
    destruct (encrypted_Encrypt der pw r1) as [[c|err] r2]; cbn; [|reflexivity].
    destruct (cryptoutils_MarshalPublicKeyToPEM _); reflexivity.
  - intros keyPath kb p priv der E1 E2 E3 E4.
    destruct (ImportKeyPair_run keyPath pf w kb p priv E1 E2 E3) as (pub & _ & ->).
    apply (HM (mkKey priv pub) der). exact E4.
  - intros key pass. split; [|split].
    + apply LoadPrivateKey_world.
    + apply LoadECDSAPrivateKey_world.
    + apply LoadRSAPrivateKey_world.
Qed.

(** C8.  The bundle of a successful [MarshallKeyPair] or [GenerateKeyPair]
    re-exposes, through [Password], exactly the bytes the callback answered
    during that call; and when the callback answers with an error, that
    very error is returned, with no bundle. *)
Theorem passphrase_is_reexposed (pf : PassFunc) (w : World) :
  (forall kp ks e w',
      MarshallKeyPair kp pf w = (Return (Some ks, e), w') ->
      pf true (pf_calls w) = ok (Password ks))
  /\
  (forall ks e w',
      GenerateKeyPair pf w = (Return (Some ks, e), w') ->
      pf true (pf_calls w) = ok (Password ks))
  /\
  (forall kp der err,
      x509_MarshalPKCS8PrivateKey (private kp) = ok der ->
      pf true (pf_calls w) = failed err ->
      fst (MarshallKeyPair kp pf w) = Return (None, Some err))
  /\
  (forall priv r1 der err,
      ecdsa_GenerateKey P256 (rand w) = (ok priv, r1) ->
      x509_MarshalPKCS8PrivateKey (ecdsa_priv priv) = ok der ->
      pf true (pf_calls w) = failed err ->
      fst (GenerateKeyPair pf w) = Return (None, Some err)).
Proof.
  split; [|split; [|split]].
  - intros kp ks e w' E.
    destruct (MarshallKeyPair_success kp pf w w' ks e E)
      as (der & c & r' & _ & Epf & _). exact Epf.
  - intros ks e w' E.
    destruct (GenerateKeyPair_success pf w w' ks e E)
      as (priv & r1 & der & c & r2 & _ & _ & Epf & _). exact Epf.
  - intros kp der err E1 E2. unfold MarshallKeyPair. rewrite E1. run_go.
    rewrite E2. reflexivity.
  - intros priv r1 der err E0 E1 E2.
    unfold GenerateKeyPair, GeneratePrivateKey. run_go. rewrite E0. cbn.
    rewrite E1. cbn. rewrite E2. reflexivity.
Qed.

(** C6.  In every bundle that [GenerateKeyPair] or [ImportKeyPair] returns,
    [PublicBytes] is the PEM serialization of the public key derived from
    the private key whose encryption [PrivateBytes] carries. *)
Theorem public_bytes_match_private_key
        (pf : PassFunc) (w w' : World) (ks : Keys) (e : option error) :
  (GenerateKeyPair pf w = (Return (Some ks, e), w') \/
   exists keyPath, ImportKeyPair keyPath pf w = (Return (Some ks, e), w')) ->
  exists priv pub,
    carries ks priv /\
    derived_public priv = Some pub /\
    cryptoutils_MarshalPublicKeyToPEM pub = ok (PublicBytes ks).
Proof.
  intros [E | [keyPath E]].
  - destruct (GenerateKeyPair_success pf w w' ks e E)
      as (priv & r1 & der & c & r2 & _ & E1 & _ & E3 & E4 & E5 & _).
    exists (ecdsa_priv priv), (ecdsa_pub (ecdsa_Public priv)).
    split; [|split; [reflexivity | exact E5]].
    exists der. split; [exact E1|]. exists r1, c, r2. auto.
  - destruct (ImportKeyPair_success keyPath pf w w' ks e E)
      as (priv & pub & Ed & EM).
    destruct (MarshallKeyPair_success _ pf w w' ks e EM)
      as (der & c & r' & E1 & _ & E3 & E4 & E5 & _).
    exists priv, pub. split; [|split; [exact Ed | exact E5]].
    exists der. split; [exact E1|]. exists (rand w), c, r'. auto.
Qed.

(** C10, as the code has it.  [MarshallKeyPair] does not compare the two
    handles of the [Key]: for any pair, matched or not, whose handles
    serialize, with a callback that answers and an encryption step that
    succeeds, the call succeeds and [PublicBytes] is the serialization of
    the public handle that was supplied. *)
Theorem MarshallKeyPair_does_not_check_pairing
        (kp : Key) (pf : PassFunc) (w : World)
        (der pubBytes p c : bytes) (r' : rand_Reader) :
  x509_MarshalPKCS8PrivateKey (private kp) = ok der ->
  cryptoutils_MarshalPublicKeyToPEM (public kp) = ok pubBytes ->
  pf true (pf_calls w) = ok p ->
  encrypted_Encrypt der p (rand w) = (ok c, r') ->
  exists ks w',
    MarshallKeyPair kp pf w = (Return (Some ks, None), w') /\
    PublicBytes ks = pubBytes.
Proof.
  intros E1 E4 E2 E3.
  rewrite (MarshallKeyPair_run kp pf w der p c pubBytes r' E1 E2 E3 E4).
  eexists. eexists. split; reflexivity.
Qed.

(** C3.  Round trip.  A bundle generated with a callback answering [p]
    loads, under [p], into an ECDSA signer/verifier built from the very key
    that was generated; [PublicBytes] reads back as that key's public key;
    and what the signer/verifier signs verifies against it. *)
Theorem generate_then_load_roundtrip
        (pf : PassFunc) (p : bytes) (w w' : World) (ks : Keys) :
  pem_roundtrip ->
  decrypt_inverts_encrypt ->
  pkcs8_roundtrip ->
  public_pem_roundtrip ->
  ecdsa_signer_loads ->
  ecdsa_signatures_verify ->
  pf true (pf_calls w) = ok p ->
  GenerateKeyPair pf w = (Return (Some ks, None), w') ->
  exists priv sv,
    fst (ecdsa_GenerateKey P256 (rand w)) = ok priv /\
    signature_LoadECDSASignerVerifier priv SHA256 = ok sv /\
    (forall w0, LoadPrivateKey (PrivateBytes ks) p w0
                = (Return (Some (sv_ECDSA (Some sv)), None), w0)) /\
    PemToECDSAKey (PublicBytes ks) = (Some (ecdsa_Public priv), None) /\
    (forall msg r sig r',
        ecdsa_SignMessage sv msg r = (ok sig, r') ->
        ecdsa_VerifySignature (ecdsa_Public priv) SHA256 sig msg = true).
Proof.
  intros Hpem Hdec Hp8 Hpub Hload Hsig Epf E.
  destruct (GenerateKeyPair_success pf w w' ks None E)
    as (priv & r1 & der & c & r2 & E0 & E1 & Epf' & E3 & E4 & E5 & _).
  assert (Password ks = p) as Hp by congruence. rewrite Hp in E3.
  destruct (Hload priv) as [sv Esv].
  exists priv, sv. split; [rewrite E0; reflexivity|]. split; [exact Esv|].
  split; [|split].
  - intros w0.
    rewrite (LoadPrivateKey_parsed (PrivateBytes ks) p der
               (mkBlock PrivateKeyPemType [] c) (ecdsa_priv priv) w0).
    + rewrite Esv. reflexivity.
    + rewrite E4. apply Hpem.
    + reflexivity.
    + exact (Hdec der p r1 c r2 E3).
    + exact (Hp8 _ _ E1).
  - unfold PemToECDSAKey. rewrite (Hpub _ _ E5). reflexivity.
  - intros msg r sig r' Es. exact (Hsig priv SHA256 sv msg r sig r' Esv Es).
Qed.


End EncoderClaims.

(** ** Runs on the toy packages *)

Section Runs.
Import Toy ToyFacts cosign.

(** The sample EC bundle is what [GenerateKeyPair] returns. *)
Lemma ec_bundle_generated :
  GenerateKeyPair (constant_pf hunter2) (world 2 "" [])
  = (Return (Some ec_bundle, None),
     mkWorld 0 (os_files (world 2 "" [])) [true]).
Proof. reflexivity. Qed.

Lemma LoadPrivateKey_unsupported_key_witness :
  x509_ParsePKCS8PrivateKey [x03; x07; x08] = ok (@ed25519_priv handles [x07; x08]) /\
  LoadPrivateKey ed25519_bundle hunter2 (world 0 "" [])
  = (Return (None, None), world 0 "" []).
Proof.
  split; [reflexivity|].
  apply (LoadPrivateKey_unsupported_key_returns_nil_nil
           ed25519_bundle hunter2 [x03; x07; x08] [x07; x08]
           (mkBlock PrivateKeyPemType [] (escape hunter2 ++ [x03; x07; x08])%list));
    reflexivity.
Defined.

Lemma LoadRSAPrivateKey_panics_witness :
  fst (GenerateKeyPair (constant_pf hunter2) (world 2 "" []))
  = Return (Some ec_bundle, None) /\
  (exists msg, LoadRSAPrivateKey (PrivateBytes ec_bundle) hunter2 (world 0 "" [])
               = (Panic msg, world 0 "" [])) /\
  LoadECDSAPrivateKey (PrivateBytes ec_bundle) hunter2 (world 0 "" [])
  = (Return (Some (x02, SHA256), None), world 0 "" []).
Proof.
  split; [reflexivity|]. split; [|reflexivity].
  apply (LoadRSAPrivateKey_panics_on_other_algorithm
           (PrivateBytes ec_bundle) hunter2 [x02; x02]
           (mkBlock PrivateKeyPemType [] (escape hunter2 ++ [x02; x02])%list)
           (@ecdsa_priv handles x02) (world 0 "" []));
    try reflexivity.
  intros rpk; discriminate.
Defined.



Lemma passphrase_callback_called_once_witness :
  pf_calls (snd (MarshallKeyPair mismatched (constant_pf hunter2) (world 1 "" [])))
  = [true] /\
  pf_calls (snd (GenerateKeyPair cancelled_pf (world 2 "" []))) = [true] /\
  pf_calls (snd (ImportKeyPair "k.pem" (constant_pf hunter2)
                               (world 1 "k.pem" rsa_plain))) = [true].
Proof.
  split; [|split].
  - apply (proj1 (passphrase_callback_called_once
                    (constant_pf hunter2) (world 1 "" []))
             mismatched [x01; x11]).
    reflexivity.
  - apply (proj1 (proj2 (passphrase_callback_called_once
                           cancelled_pf (world 2 "" [])))
             x02 (1 : @rand_Reader handles) [x02; x02]);
      reflexivity.
  - apply (proj1 (proj2 (proj2 (passphrase_callback_called_once
                                  (constant_pf hunter2)
                                  (world 1 "k.pem" rsa_plain))))
             "k.pem" rsa_plain (mkBlock RSAPrivateKeyPemType [] [x11])
             (@rsa_priv handles x11) [x01; x11]);
      reflexivity.
Defined.

Lemma passphrase_is_reexposed_witness :
  constant_pf hunter2 true [] = ok (Password ec_bundle) /\
  fst (MarshallKeyPair mismatched cancelled_pf (world 1 "" []))
  = Return (None, Some (errors_New "cancelled")).
Proof.
  split.
  - apply (proj1 (proj2 (passphrase_is_reexposed
                           (constant_pf hunter2) (world 2 "" [])))
             ec_bundle None (@mkWorld handles 0 (os_files (world 2 "" [])) [true])).
    reflexivity.
  - apply (proj1 (proj2 (proj2 (passphrase_is_reexposed
                                  cancelled_pf (world 1 "" []))))
             mismatched [x01; x11] (errors_New "cancelled"));
      reflexivity.
Defined.

Lemma public_bytes_match_private_key_witness :
  exists priv pub,
    carries ec_bundle priv /\
    derived_public priv = Some pub /\
    cryptoutils_MarshalPublicKeyToPEM pub = ok (PublicBytes ec_bundle).
Proof.
  apply (public_bytes_match_private_key
           (constant_pf hunter2) (world 2 "" [])
           (@mkWorld handles 0 (os_files (world 2 "" [])) [true]) ec_bundle None).
  left. reflexivity.
Defined.

Lemma MarshallKeyPair_does_not_check_pairing_witness :
  derived_public (private mismatched) <> Some (public mismatched) /\
  exists ks w',
    MarshallKeyPair mismatched (constant_pf hunter2) (world 1 "" [])
    = (Return (Some ks, None), w') /\
    PublicBytes ks = [x02; x22].
Proof.
  split; [discriminate|].
  apply (MarshallKeyPair_does_not_check_pairing
           mismatched (constant_pf hunter2) (world 1 "" [])
           [x01; x11] [x02; x22] hunter2
           (escape hunter2 ++ [x01; x11])%list (0 : @rand_Reader handles));
    reflexivity.
Defined.

(** C10, as the specification words it, fails: both handles serialize and
    the callback answers, but the entropy source is exhausted, so the
    encryption step fails and [MarshallKeyPair] returns its error. *)
Lemma encoder_can_fail_at_encryption :
  fst (MarshallKeyPair mismatched (constant_pf hunter2) (world 0 "" []))
  = Return (None, Some (errors_New "crypto/rand: no entropy")) /\
  ~ encoder_succeeds_as_stated mismatched (constant_pf hunter2) (world 0 "" []).
Proof.
  split; [reflexivity|].
  intros Hs.
  destruct (Hs [x01; x11] [x02; x22] hunter2 eq_refl eq_refl eq_refl)
    as (ks & w' & E & _).
  discriminate E.
Qed.

Lemma generate_then_load_roundtrip_witness :
  exists priv sv,
    fst (ecdsa_GenerateKey P256 (rand (world 2 "" []))) = ok priv /\
    signature_LoadECDSASignerVerifier priv SHA256 = ok sv /\
    (forall w, LoadPrivateKey (PrivateBytes ec_bundle) hunter2 w
               = (Return (Some (sv_ECDSA (Some sv)), None), w)) /\
    PemToECDSAKey (PublicBytes ec_bundle) = (Some (ecdsa_Public priv), None) /\
    (forall msg r sig r',
        ecdsa_SignMessage sv msg r = (ok sig, r') ->
        ecdsa_VerifySignature (ecdsa_Public priv) SHA256 sig msg = true).
Proof.
  apply (generate_then_load_roundtrip
           (constant_pf hunter2) hunter2 (world 2 "" [])
           (@mkWorld handles 0 (os_files (world 2 "" [])) [true]) ec_bundle
           pem_roundtrip_holds decrypt_inverts_encrypt_holds
           pkcs8_roundtrip_holds public_pem_roundtrip_holds
           ecdsa_signer_loads_holds ecdsa_signatures_verify_holds);
    reflexivity.
Defined.


End Runs.


(** ** More on the encoder paths: composition and failures *)

Section EncoderBehaviour.
Context {H : Handles} {L : Lib}.
Import cosign.

(** [GenerateKeyPair] unfolded at its first step. *)
Lemma GenerateKeyPair_step (pf : PassFunc) (w : World) :
  GenerateKeyPair pf w
  = match ecdsa_GenerateKey P256 (rand w) with
    | (ok priv, r1) =>
      MarshallKeyPair (mkKey (ecdsa_priv priv) (ecdsa_pub (ecdsa_Public priv))) pf
                      (mkWorld r1 (os_files w) (pf_calls w))
    | (failed err, r1) =>
      (Return (None, Some err), mkWorld r1 (os_files w) (pf_calls w))
    end.
Proof.
  unfold GenerateKeyPair, GeneratePrivateKey, MarshallKeyPair. run_go.
  destruct (ecdsa_GenerateKey P256 (rand w)) as [[priv|err] r1]; cbn;
    [|reflexivity].
  destruct (x509_MarshalPKCS8PrivateKey (ecdsa_priv priv)) as [der|err]; cbn;
    [|reflexivity].
  destruct (pf true (pf_calls w)) as [pw|err]; cbn; [|reflexivity].
  destruct (encrypted_Encrypt der pw r1) as [[c|err] r2]; cbn; reflexivity.
Qed.


(** X1.  [GenerateKeyPair] repeats the encoder inline; the copy is faithful:
    once a key is generated, the call is [MarshallKeyPair] applied to that key
    and its own public key, in the world the generation left. *)
Theorem GenerateKeyPair_encodes_generated_key
        (pf : PassFunc) (w : World) (priv : ecdsa_PrivateKey) (r1 : rand_Reader) :
  ecdsa_GenerateKey P256 (rand w) = (ok priv, r1) ->
  GenerateKeyPair pf w
  = MarshallKeyPair (mkKey (ecdsa_priv priv) (ecdsa_pub (ecdsa_Public priv))) pf
                    (mkWorld r1 (os_files w) (pf_calls w)).
Proof.
  intros E. rewrite GenerateKeyPair_step, E. reflexivity.
Qed.

(** X2.  When key generation fails, [GenerateKeyPair] returns that error as
    it is, with no bundle, and the callback is not invoked. *)
Theorem GenerateKeyPair_generation_failure
        (pf : PassFunc) (w : World) (err : error) (r1 : rand_Reader) :
  ecdsa_GenerateKey P256 (rand w) = (failed err, r1) ->
  fst (GenerateKeyPair pf w) = Return (None, Some err) /\
  pf_calls (snd (GenerateKeyPair pf w)) = pf_calls w.
Proof.
  intros E. rewrite GenerateKeyPair_step, E. split; reflexivity.
Qed.

(** X3.  A private key that does not serialize stops the encoder before the
    passphrase step: the serializer's error comes back wrapped as
    "x509 encoding private key", and the world is untouched (no prompt, no
    entropy drawn). *)
Theorem MarshallKeyPair_unserializable_private_key
        (kp : Key) (pf : PassFunc) (w : World) (err : error) :
  x509_MarshalPKCS8PrivateKey (private kp) = failed err ->
  MarshallKeyPair kp pf w
  = (Return (None, Some (withMessage err "x509 encoding private key")), w).
Proof.
  intros E. unfold MarshallKeyPair. rewrite E. reflexivity.
Qed.

(** X4.  Failures past the passphrase step.  The public key is serialized
    last: when that fails, or when encryption fails, the error is returned as
    it is and no bundle, although the callback has been invoked once and, for
    the public key, the encryption has been done. *)
Theorem MarshallKeyPair_failure_after_prompt
        (kp : Key) (pf : PassFunc) (w : World) (der p : bytes) :
  x509_MarshalPKCS8PrivateKey (private kp) = ok der ->
  pf true (pf_calls w) = ok p ->
  (forall err r',
      encrypted_Encrypt der p (rand w) = (failed err, r') ->
      MarshallKeyPair kp pf w
      = (Return (None, Some err), mkWorld r' (os_files w) (pf_calls w ++ [true])))
  /\
  (forall c r' err,
      encrypted_Encrypt der p (rand w) = (ok c, r') ->
      cryptoutils_MarshalPublicKeyToPEM (public kp) = failed err ->
      MarshallKeyPair kp pf w
      = (Return (None, Some err), mkWorld r' (os_files w) (pf_calls w ++ [true]))).
Proof.
  intros E1 E2. unfold MarshallKeyPair. rewrite E1. run_go. rewrite E2. cbn.
  split.
  - intros err r' E3. rewrite E3. reflexivity.
  - intros c r' err E3 E4. rewrite E3, E4. reflexivity.
Qed.

(** The importer, step by step: it fails early with the world untouched, or
    it is the encoder applied to the parsed key. *)
Lemma ImportKeyPair_cases (keyPath : string) (pf : PassFunc) (w : World) :
  (exists err, ImportKeyPair keyPath pf w = (Return (None, Some err), w))
  \/
  (exists kb p priv pub,
      os_files w (filepath_Clean keyPath) = ok kb /\
      fst (pem_Decode kb) = Some p /\
      plain_key p = Some priv /\
      derived_public priv = Some pub /\
      ImportKeyPair keyPath pf w = MarshallKeyPair (mkKey priv pub) pf w).
Proof.
  unfold ImportKeyPair, plain_key. run_go.
  destruct (os_files w (filepath_Clean keyPath)) as [kb|err] eqn:E1.
  2:{ left. eexists. reflexivity. }
  destruct (pem_Decode kb) as [[p|] rest] eqn:E2.
  2:{ left. eexists. reflexivity. }
  destruct (Type_ p =? RSAPrivateKeyPemType) eqn:ER; cbn [negb andb].
  - destruct (x509_ParsePKCS1PrivateKey (Bytes p)) as [pk|err] eqn:E3.
    + right. exists kb, p, (rsa_priv pk), (rsa_pub (rsa_Public pk)).
      rewrite E2, ER, E3. auto.
    + left. eexists. reflexivity.
  - destruct (Type_ p =? ECPrivateKeyPemType) eqn:EE; cbn [negb].
    2:{ left. eexists. reflexivity. }
    destruct (x509_ParseECPrivateKey (Bytes p)) as [pk|err] eqn:E3.
    + right. exists kb, p, (ecdsa_priv pk), (ecdsa_pub (ecdsa_Public pk)).
      rewrite E2, ER, EE, E3. auto.
    + left. eexists. reflexivity.
Qed.


(** X6.  Early failures of the importer, each with the world untouched (no
    prompt): a file that cannot be read gives the read error as it is; content
    without a PEM block gives "invalid pem block"; a first block under a tag
    other than the two plain ones gives "unsupported pem type: " and the tag;
    a body the parser chosen by the tag refuses gives "parsing error", the
    parser's own error being dropped. *)
Theorem ImportKeyPair_early_failures (keyPath : string) (pf : PassFunc) (w : World) :
  (forall err,
      os_files w (filepath_Clean keyPath) = failed err ->
      ImportKeyPair keyPath pf w = (Return (None, Some err), w))
  /\
  (forall kb,
      os_files w (filepath_Clean keyPath) = ok kb ->
      fst (pem_Decode kb) = None ->
      ImportKeyPair keyPath pf w
      = (Return (None, Some (errors_New "invalid pem block")), w))
  /\
  (forall kb p,
      os_files w (filepath_Clean keyPath) = ok kb ->
      fst (pem_Decode kb) = Some p ->
      Type_ p <> RSAPrivateKeyPemType ->
      Type_ p <> ECPrivateKeyPemType ->
      ImportKeyPair keyPath pf w
      = (Return (None, Some (fmt_Errorf ("unsupported pem type: " ++ Type_ p))), w))
  /\
  (forall kb p,
      os_files w (filepath_Clean keyPath) = ok kb ->
      fst (pem_Decode kb) = Some p ->
      (Type_ p = RSAPrivateKeyPemType /\
       exists err, x509_ParsePKCS1PrivateKey (Bytes p) = failed err) \/
      (Type_ p = ECPrivateKeyPemType /\
       exists err, x509_ParseECPrivateKey (Bytes p) = failed err) ->
      ImportKeyPair keyPath pf w
      = (Return (None, Some (fmt_Errorf "parsing error")), w)).
Proof.
  split; [|split; [|split]].
  - intros err E. unfold ImportKeyPair. run_go. rewrite E. reflexivity.
  - intros kb E1 E2. unfold ImportKeyPair. run_go. rewrite E1.
    destruct (pem_Decode kb) as [p' rest]. cbn in E2. subst p'. reflexivity.
  - intros kb p E1 E2 HR HE. unfold ImportKeyPair. run_go. rewrite E1.
    destruct (pem_Decode kb) as [p' rest]. cbn in E2. subst p'.
    destruct (String.eqb_spec (Type_ p) RSAPrivateKeyPemType); [contradiction|].
    destruct (String.eqb_spec (Type_ p) ECPrivateKeyPemType); [contradiction|].
    reflexivity.
  - intros kb p E1 E2 [[ET [err EP]] | [ET [err EP]]];
      unfold ImportKeyPair; run_go; rewrite E1;
      destruct (pem_Decode kb) as [p' rest]; cbn in E2; subst p';
      rewrite ET; cbn; rewrite EP; reflexivity.
Qed.

End EncoderBehaviour.

(** ** More on the loaders: panics, dispatch, and what loads after encoding *)

Section LoaderBehaviour.
Context {H : Handles} {L : Lib}.
Import cosign.

(** X7.  [LoadPrivateKey] and [LoadECDSAPrivateKey] never panic and leave the
    world as it is, on every input; [LoadECDSAPrivateKey] moreover returns
    exactly one of signer/verifier and error.  ([LoadPrivateKey] calls
    [LoadRSAPrivateKey], which can panic, but only after it has itself seen
    an RSA key in the same payload.) *)
Theorem LoadPrivateKey_never_panics (key pass : bytes) (w : World) :
  (exists res, LoadPrivateKey key pass w = (Return res, w)) /\
  (exists res, LoadECDSAPrivateKey key pass w = (Return res, w) /\ exactly_one res).
Proof.
  unfold LoadPrivateKey, LoadRSAPrivateKey, LoadECDSAPrivateKey.
  destruct (pem_Decode key) as [[p|] rest].
  2:{ split; eexists; [|split]; [reflexivity | reflexivity | exact I]. }
  destruct (negb (Type_ p =? PrivateKeyPemType)).
  { split; eexists; [|split]; [reflexivity | reflexivity | exact I]. }
  destruct (encrypted_Decrypt (Bytes p) pass) as [der|err].
  2:{ split; eexists; [|split]; [reflexivity | reflexivity | exact I]. }
  destruct (x509_ParsePKCS8PrivateKey der) as [[k|k|k]|err]; run_go.
  - split; [|eexists; split; [reflexivity | exact I]].
    destruct (go_pair (signature_LoadRSAPKCS1v15SignerVerifier k SHA256)).
    eexists. reflexivity.
  - destruct (signature_LoadECDSASignerVerifier k SHA256); cbn;
      split; eexists; [|split| |split]; first [reflexivity | exact I].
  - split; eexists; [|split]; [reflexivity | reflexivity | exact I].
  - split; eexists; [|split]; [reflexivity | reflexivity | exact I].
Qed.

(** X8.  [LoadRSAPrivateKey] panics in one situation only: the input is
    well framed under the cosign tag, decrypts under the passphrase, parses as
    PKCS #8, and the parsed key is not an RSA key. *)
Theorem LoadRSAPrivateKey_panics_only_on_other_algorithm
        (key pass : bytes) (w w' : World) (msg : string) :
  LoadRSAPrivateKey key pass w = (Panic msg, w') ->
  exists p der pk,
    fst (pem_Decode key) = Some p /\
    Type_ p = PrivateKeyPemType /\
    encrypted_Decrypt (Bytes p) pass = ok der /\
    x509_ParsePKCS8PrivateKey der = ok pk /\
    forall rpk, pk <> rsa_priv rpk.
Proof.
  unfold LoadRSAPrivateKey.
  destruct (pem_Decode key) as [[p|] rest]; [|discriminate].
  destruct (String.eqb_spec (Type_ p) PrivateKeyPemType) as [ET|ET];
    cbn [negb]; [|discriminate].
  destruct (encrypted_Decrypt (Bytes p) pass) as [der|err] eqn:ED; [|discriminate].
  destruct (x509_ParsePKCS8PrivateKey der) as [pk|err] eqn:EP; [|discriminate].
  intros E. exists p, der, pk. repeat split; auto.
  intros rpk ->. destruct (go_pair _); discriminate.
Qed.

(** X9.  Dispatch.  A non-nil signer/verifier returned by [LoadPrivateKey]
    holds exactly the pointer that the algorithm-specific loader returns on
    the same input, with the same error. *)
Theorem LoadPrivateKey_agrees_with_dispatched_loader
        (key pass : bytes) (w w' : World) (e : option error) :
  (forall sv,
      LoadPrivateKey key pass w = (Return (Some (sv_ECDSA sv), e), w') ->
      LoadECDSAPrivateKey key pass w = (Return (sv, e), w')) /\
  (forall sv,
      LoadPrivateKey key pass w = (Return (Some (sv_RSA sv), e), w') ->
      LoadRSAPrivateKey key pass w = (Return (sv, e), w')).
Proof.
  unfold LoadPrivateKey, LoadRSAPrivateKey, LoadECDSAPrivateKey.
  destruct (pem_Decode key) as [[p|] rest]; [|split; intros sv E; discriminate].
  destruct (negb (Type_ p =? PrivateKeyPemType));
    [split; intros sv E; discriminate|].
  destruct (encrypted_Decrypt (Bytes p) pass) as [der|err];
    [|split; intros sv E; discriminate].
  destruct (x509_ParsePKCS8PrivateKey der) as [[k|k|k]|err]; run_go;
    try (split; intros sv E; discriminate).
  - destruct (go_pair (signature_LoadRSAPKCS1v15SignerVerifier k SHA256)) as [s e0].
    split; intros sv E; [discriminate|]. inv_pair E. reflexivity.
  - destruct (go_pair (signature_LoadECDSASignerVerifier k SHA256)) as [s e0].
    split; intros sv E; [|discriminate]. inv_pair E. reflexivity.
Qed.

(** X10.  Shared failures.  When [LoadPrivateKey] returns a nil
    signer/verifier with an error (no PEM block, foreign tag, failed
    decryption, failed parse), both algorithm-specific loaders return the same
    error on the same input. *)
Theorem LoadPrivateKey_failure_is_shared
        (key pass : bytes) (w w' : World) (err : error) :
  LoadPrivateKey key pass w = (Return (None, Some err), w') ->
  LoadECDSAPrivateKey key pass w = (Return (None, Some err), w') /\
  LoadRSAPrivateKey key pass w = (Return (None, Some err), w').
Proof.
  unfold LoadPrivateKey, LoadRSAPrivateKey, LoadECDSAPrivateKey.
  destruct (pem_Decode key) as [[p|] rest]; run_go;
    [|intros E; inv_pair E; split; reflexivity].
  destruct (negb (Type_ p =? PrivateKeyPemType));
    [intros E; inv_pair E; split; reflexivity|].
  destruct (encrypted_Decrypt (Bytes p) pass) as [der|e0];
    [|intros E; inv_pair E; split; reflexivity].
  destruct (x509_ParsePKCS8PrivateKey der) as [[k|k|k]|e0];
    [| | discriminate | intros E; inv_pair E; split; reflexivity].
  - destruct (go_pair _); discriminate.
  - destruct (go_pair _); discriminate.
Qed.

(** X11.  What loads after encoding is decided by the private handle alone.
    A bundle made by [MarshallKeyPair] from any [Key], loaded under the
    passphrase it re-exposes: an RSA handle gives the RSA signer/verifier of
    that key, an ECDSA handle the ECDSA one, an Ed25519 handle a nil
    signer/verifier with a nil error.  The public handle plays no part. *)
Theorem encode_then_load_follows_private_handle
        (kp : Key) (pf : PassFunc) (w w' : World) (ks : Keys) (e : option error) :
  pem_roundtrip ->
  decrypt_inverts_encrypt ->
  pkcs8_roundtrip ->
  MarshallKeyPair kp pf w = (Return (Some ks, e), w') ->
  forall w0,
    LoadPrivateKey (PrivateBytes ks) (Password ks) w0
    = match private kp with
      | rsa_priv rpk =>
        let '(sv, e) := go_pair (signature_LoadRSAPKCS1v15SignerVerifier rpk SHA256) in
        (Return (Some (sv_RSA sv), e), w0)
      | ecdsa_priv epk =>
        let '(sv, e) := go_pair (signature_LoadECDSASignerVerifier epk SHA256) in
        (Return (Some (sv_ECDSA sv), e), w0)
      | ed25519_priv _ => (Return (None, None), w0)
      end.
Proof.
  intros Hpem Hdec Hp8 E w0.
  destruct (MarshallKeyPair_success kp pf w w' ks e E)
    as (der & c & r' & E1 & _ & E3 & E4 & _).
  apply (LoadPrivateKey_parsed (PrivateBytes ks) (Password ks) der
           (mkBlock PrivateKeyPemType [] c) (private kp) w0).
  - rewrite E4. apply Hpem.
  - reflexivity.
  - exact (Hdec _ _ _ _ _ E3).
  - exact (Hp8 _ _ E1).
Qed.

(** X12.  Import, then load.  A bundle imported from a plain "RSA PRIVATE
    KEY" file loads, through [LoadRSAPrivateKey], into the RSA
    signer/verifier of the parsed key, and [LoadECDSAPrivateKey] answers it
    with "invalid private key"; a bundle imported from an "EC PRIVATE KEY"
    file loads through [LoadECDSAPrivateKey] into the ECDSA signer/verifier
    of the parsed key. *)
Theorem import_then_load_roundtrip
        (keyPath : string) (pf : PassFunc) (w w' : World) (ks : Keys)
        (e : option error) :
  pem_roundtrip ->
  decrypt_inverts_encrypt ->
  pkcs8_roundtrip ->
  ImportKeyPair keyPath pf w = (Return (Some ks, e), w') ->
  exists kb p,
    os_files w (filepath_Clean keyPath) = ok kb /\
    fst (pem_Decode kb) = Some p /\
    ((Type_ p = RSAPrivateKeyPemType /\
      exists rpk,
        x509_ParsePKCS1PrivateKey (Bytes p) = ok rpk /\
        forall w0,
          LoadRSAPrivateKey (PrivateBytes ks) (Password ks) w0
          = (Return (go_pair (signature_LoadRSAPKCS1v15SignerVerifier rpk SHA256)), w0) /\
          LoadECDSAPrivateKey (PrivateBytes ks) (Password ks) w0
          = (Return (None, Some (errors_New "invalid private key")), w0))
     \/
     (Type_ p = ECPrivateKeyPemType /\
      exists epk,
        x509_ParseECPrivateKey (Bytes p) = ok epk /\
        forall w0,
          LoadECDSAPrivateKey (PrivateBytes ks) (Password ks) w0
          = (Return (go_pair (signature_LoadECDSASignerVerifier epk SHA256)), w0))).
Proof.
  intros Hpem Hdec Hp8 E.
  destruct (ImportKeyPair_cases keyPath pf w)
    as [(err & E') | (kb & p & priv & pub & E1 & E2 & E3 & _ & E')];
    rewrite E' in E; [discriminate|].
  destruct (MarshallKeyPair_success _ pf w w' ks e E)
    as (der & c & r' & M1 & _ & M3 & M4 & _).
  cbn [private] in M1.
  assert (HD : fst (pem_Decode (PrivateBytes ks))
               = Some (mkBlock PrivateKeyPemType [] c))
    by (rewrite M4; apply Hpem).
  pose proof (Hdec _ _ _ _ _ M3) as HC. pose proof (Hp8 _ _ M1) as HP.
  exists kb, p. split; [exact E1|]. split; [exact E2|].
  unfold plain_key in E3.
  destruct (String.eqb_spec (Type_ p) RSAPrivateKeyPemType) as [ER|ER].
  - left. split; [exact ER|].
    destruct (x509_ParsePKCS1PrivateKey (Bytes p)) as [rpk|]; [|discriminate].
    inv_pair E3. exists rpk. split; [reflexivity|]. intros w0. split.
    + rewrite (LoadRSAPrivateKey_parsed _ _ der _ (rsa_priv rpk) w0 HD eq_refl HC HP).
      reflexivity.
    + rewrite (LoadECDSAPrivateKey_parsed _ _ der _ (rsa_priv rpk) w0 HD eq_refl HC HP).
      reflexivity.
  - destruct (String.eqb_spec (Type_ p) ECPrivateKeyPemType) as [EE|EE];
      [|discriminate].
    right. split; [exact EE|].
    destruct (x509_ParseECPrivateKey (Bytes p)) as [epk|]; [|discriminate].
    inv_pair E3. exists epk. split; [reflexivity|]. intros w0.
    rewrite (LoadECDSAPrivateKey_parsed _ _ der _ (ecdsa_priv epk) w0 HD eq_refl HC HP).
    reflexivity.
Qed.

(** X13.  The importer and the loader accept disjoint inputs: the content of
    a file from which [ImportKeyPair] makes a bundle is refused by
    [LoadPrivateKey], under any passphrase, as an unsupported PEM type, the
    plain tag being named. *)
Theorem imported_file_is_not_loadable
        (keyPath : string) (pf : PassFunc) (w w' : World) (ks : Keys)
        (e : option error) :
  ImportKeyPair keyPath pf w = (Return (Some ks, e), w') ->
  exists kb ty,
    os_files w (filepath_Clean keyPath) = ok kb /\
    (ty = RSAPrivateKeyPemType \/ ty = ECPrivateKeyPemType) /\
    forall pass w0,
      LoadPrivateKey kb pass w0
      = (Return (None, Some (fmt_Errorf ("unsupported pem type: " ++ ty))), w0).
Proof.
  intros E.
  destruct (ImportKeyPair_cases keyPath pf w)
    as [(err & E') | (kb & p & priv & pub & E1 & E2 & E3 & _ & _)];
    [rewrite E' in E; discriminate|].
  exists kb, (Type_ p). split; [exact E1|].
  assert (HT : Type_ p = RSAPrivateKeyPemType \/ Type_ p = ECPrivateKeyPemType).
  { unfold plain_key in E3.
    destruct (String.eqb_spec (Type_ p) RSAPrivateKeyPemType); [auto|].
    destruct (String.eqb_spec (Type_ p) ECPrivateKeyPemType); [auto|discriminate]. }
  split; [exact HT|]. intros pass w0. unfold LoadPrivateKey.
  destruct (pem_Decode kb) as [p' rest]. cbn in E2. subst p'.
  destruct HT as [-> | ->]; reflexivity.
Qed.

(** X14.  Conversely, the private bytes of a bundle cannot be imported: on a
    file holding a PEM block written under the cosign tag, [ImportKeyPair]
    fails with "unsupported pem type: ENCRYPTED COSIGN PRIVATE KEY", without
    a prompt. *)
Theorem bundle_is_not_importable
        (keyPath : string) (pf : PassFunc) (w : World) (c : bytes) :
  pem_roundtrip ->
  os_files w (filepath_Clean keyPath)
  = ok (pem_EncodeToMemory (mkBlock PrivateKeyPemType [] c)) ->
  ImportKeyPair keyPath pf w
  = (Return (None, Some (fmt_Errorf
                           "unsupported pem type: ENCRYPTED COSIGN PRIVATE KEY")), w).
Proof.
  intros Hpem E. unfold ImportKeyPair. run_go. rewrite E.
  pose proof (Hpem c) as HD.
  destruct (pem_Decode _) as [p' rest]. cbn in HD. subst p'. reflexivity.
Qed.

(** X15.  [PemToECDSAKey] on the public bytes of a bundle made by
    [MarshallKeyPair] is decided by the public handle that was supplied: an
    ECDSA handle is read back, any other is refused with an error naming its
    type. *)
Theorem PemToECDSAKey_on_bundle
        (kp : Key) (pf : PassFunc) (w w' : World) (ks : Keys) (e : option error) :
  public_pem_roundtrip ->
  MarshallKeyPair kp pf w = (Return (Some ks, e), w') ->
  PemToECDSAKey (PublicBytes ks)
  = match public kp with
    | ecdsa_pub k => (Some k, None)
    | pub => (None, Some (fmt_Errorf ("invalid public key: was " ++ type_name pub
                                      ++ ", require *ecdsa.PublicKey")))
    end.
Proof.
  intros Hpub E.
  destruct (MarshallKeyPair_success kp pf w w' ks e E)
    as (der & c & r' & _ & _ & _ & _ & E5 & _).
  unfold PemToECDSAKey. rewrite (Hpub _ _ E5).
  destruct (public kp); reflexivity.
Qed.

End LoaderBehaviour.

(** ** More runs on the toy packages *)

Section MoreRuns.
Import Toy ToyVariants ToyFacts cosign.

Lemma GenerateKeyPair_encodes_generated_key_witness :
  GenerateKeyPair (constant_pf hunter2) (world 2 "" [])
  = MarshallKeyPair (mkKey (ecdsa_priv x02) (ecdsa_pub x02)) (constant_pf hunter2)
                    (world 1 "" []).
Proof.
  apply (GenerateKeyPair_encodes_generated_key
           (constant_pf hunter2) (world 2 "" []) x02 (1 : @rand_Reader handles)).
  reflexivity.
Defined.

Lemma GenerateKeyPair_generation_failure_witness :
  fst (GenerateKeyPair (constant_pf hunter2) (world 0 "" []))
  = Return (None, Some (errors_New "crypto/rand: no entropy")) /\
  pf_calls (snd (GenerateKeyPair (constant_pf hunter2) (world 0 "" []))) = [].
Proof.
  apply (GenerateKeyPair_generation_failure
           (constant_pf hunter2) (world 0 "" [])
           (errors_New "crypto/rand: no entropy") (0 : @rand_Reader handles)).
  reflexivity.
Defined.

Lemma MarshallKeyPair_unserializable_private_key_witness :
  @MarshallKeyPair handles picky ed25519_key (constant_pf hunter2) (world 1 "" [])
  = (Return (None, Some (withMessage
                           (errors_New "x509: unknown key type while marshaling PKCS#8")
                           "x509 encoding private key")),
     world 1 "" []).
Proof.
  apply (@MarshallKeyPair_unserializable_private_key handles picky
           ed25519_key (constant_pf hunter2) (world 1 "" [])).
  reflexivity.
Defined.

Lemma MarshallKeyPair_failure_after_prompt_witness :
  MarshallKeyPair mismatched (constant_pf hunter2) (world 0 "" [])
  = (Return (None, Some (errors_New "crypto/rand: no entropy")),
     @mkWorld handles 0 (os_files (world 0 "" [])) [true]) /\
  @MarshallKeyPair handles picky rsa_with_ed25519_public
                   (constant_pf hunter2) (world 1 "" [])
  = (Return (None, Some (errors_New "unsupported public key type")),
     @mkWorld handles 0 (os_files (world 1 "" [])) [true]).
Proof.
  split.
  - apply (proj1 (@MarshallKeyPair_failure_after_prompt handles lib
                    mismatched (constant_pf hunter2) (world 0 "" [])
                    [x01; x11] hunter2
                    (@eq_refl (result bytes) (ok [x01; x11]))
                    (@eq_refl (result bytes) (ok hunter2)))).
    reflexivity.
  - apply (proj2 (@MarshallKeyPair_failure_after_prompt handles picky
                    rsa_with_ed25519_public (constant_pf hunter2) (world 1 "" [])
                    [x01; x11] hunter2
                    (@eq_refl (result bytes) (ok [x01; x11]))
                    (@eq_refl (result bytes) (ok hunter2)))
             (escape hunter2 ++ [x01; x11])%list);
      reflexivity.
Defined.

Lemma ImportKeyPair_early_failures_witness :
  ImportKeyPair "missing.pem" (constant_pf hunter2) (world 1 "k.pem" rsa_plain)
  = (Return (None, Some (errors_New "no such file or directory")),
     world 1 "k.pem" rsa_plain) /\
  ImportKeyPair "k.pem" (constant_pf hunter2) (world 1 "k.pem" [])
  = (Return (None, Some (errors_New "invalid pem block")), world 1 "k.pem" []) /\
  ImportKeyPair "k.pem" (constant_pf hunter2) (world 1 "k.pem" certificate)
  = (Return (None, Some (fmt_Errorf "unsupported pem type: CERTIFICATE")),
     world 1 "k.pem" certificate) /\
  ImportKeyPair "k.pem" (constant_pf hunter2) (world 1 "k.pem" rsa_malformed)
  = (Return (None, Some (fmt_Errorf "parsing error")), world 1 "k.pem" rsa_malformed).
Proof.
  split; [|split; [|split]].
  - apply (proj1 (ImportKeyPair_early_failures
                    "missing.pem" (constant_pf hunter2) (world 1 "k.pem" rsa_plain))).
    reflexivity.
  - apply (proj1 (proj2 (ImportKeyPair_early_failures
                           "k.pem" (constant_pf hunter2) (world 1 "k.pem" [])))
             []);
      reflexivity.
  - apply (proj1 (proj2 (proj2 (ImportKeyPair_early_failures
                                  "k.pem" (constant_pf hunter2)
                                  (world 1 "k.pem" certificate))))
             certificate (mkBlock "CERTIFICATE" [] [x30]));
      try reflexivity; discriminate.
  - apply (proj2 (proj2 (proj2 (ImportKeyPair_early_failures
                                  "k.pem" (constant_pf hunter2)
                                  (world 1 "k.pem" rsa_malformed))))
             rsa_malformed (mkBlock RSAPrivateKeyPemType [] [x11; x12]));
      try reflexivity.
    left. split; [reflexivity|]. eexists. reflexivity.
Defined.

Lemma LoadRSAPrivateKey_panics_only_witness :
  exists p der pk,
    fst (pem_Decode (PrivateBytes ec_bundle)) = Some p /\
    Type_ p = PrivateKeyPemType /\
    encrypted_Decrypt (Bytes p) hunter2 = ok der /\
    x509_ParsePKCS8PrivateKey der = ok pk /\
    forall rpk, pk <> rsa_priv rpk.
Proof.
  apply (LoadRSAPrivateKey_panics_only_on_other_algorithm
           (PrivateBytes ec_bundle) hunter2 (world 0 "" []) (world 0 "" [])
           "interface conversion: interface {} is not *rsa.PrivateKey").
  reflexivity.
Defined.

Lemma LoadPrivateKey_agrees_with_dispatched_loader_witness :
  LoadECDSAPrivateKey (PrivateBytes ec_bundle) hunter2 (world 0 "" [])
  = (Return (Some (x02, SHA256), None), world 0 "" []) /\
  LoadRSAPrivateKey (PrivateBytes rsa_bundle) hunter2 (world 0 "" [])
  = (Return (Some (x11, SHA256), None), world 0 "" []).
Proof.
  split.
  - apply (proj1 (LoadPrivateKey_agrees_with_dispatched_loader
                    (PrivateBytes ec_bundle) hunter2 (world 0 "" []) (world 0 "" [])
                    None)).
    reflexivity.
  - apply (proj2 (LoadPrivateKey_agrees_with_dispatched_loader
                    (PrivateBytes rsa_bundle) hunter2 (world 0 "" []) (world 0 "" [])
                    None)).
    reflexivity.
Defined.

Lemma LoadPrivateKey_failure_is_shared_witness :
  LoadECDSAPrivateKey (PrivateBytes ec_bundle) letmein (world 0 "" [])
  = (Return (None, Some (withMessage (errors_New "encrypted: decryption failed")
                                     "decrypt")), world 0 "" []) /\
  LoadRSAPrivateKey (PrivateBytes ec_bundle) letmein (world 0 "" [])
  = (Return (None, Some (withMessage (errors_New "encrypted: decryption failed")
                                     "decrypt")), world 0 "" []).
Proof.
  apply (LoadPrivateKey_failure_is_shared
           (PrivateBytes ec_bundle) letmein (world 0 "" []) (world 0 "" [])).
  reflexivity.
Defined.

Lemma encode_then_load_follows_private_handle_witness :
  LoadPrivateKey
    (encode (mkBlock PrivateKeyPemType [] (escape hunter2 ++ [x01; x11])%list))
    hunter2 (world 0 "" [])
  = (Return (Some (sv_RSA (Some (x11, SHA256))), None), world 0 "" []).
Proof.
  refine (encode_then_load_follows_private_handle
           mismatched (constant_pf hunter2) (world 1 "" [])
           (@mkWorld handles 0 (os_files (world 1 "" [])) [true])
           (mkKeys (encode (mkBlock PrivateKeyPemType []
                                    (escape hunter2 ++ [x01; x11])%list))
                   [x02; x22] hunter2)
           None
           pem_roundtrip_holds decrypt_inverts_encrypt_holds pkcs8_roundtrip_holds
           _ (world 0 "" [])).
  reflexivity.
Defined.

Lemma import_then_load_roundtrip_witness :
  exists kb p,
    os_files (world 1 "k.pem" rsa_plain) (filepath_Clean "k.pem") = ok kb /\
    fst (pem_Decode kb) = Some p /\
    ((Type_ p = RSAPrivateKeyPemType /\
      exists rpk,
        x509_ParsePKCS1PrivateKey (Bytes p) = ok rpk /\
        forall w0,
          LoadRSAPrivateKey (PrivateBytes rsa_bundle) (Password rsa_bundle) w0
          = (Return (go_pair (signature_LoadRSAPKCS1v15SignerVerifier rpk SHA256)), w0) /\
          LoadECDSAPrivateKey (PrivateBytes rsa_bundle) (Password rsa_bundle) w0
          = (Return (None, Some (errors_New "invalid private key")), w0))
     \/
     (Type_ p = ECPrivateKeyPemType /\
      exists epk,
        x509_ParseECPrivateKey (Bytes p) = ok epk /\
        forall w0,
          LoadECDSAPrivateKey (PrivateBytes rsa_bundle) (Password rsa_bundle) w0
          = (Return (go_pair (signature_LoadECDSASignerVerifier epk SHA256)), w0))).
Proof.
  apply (import_then_load_roundtrip
           "k.pem" (constant_pf hunter2) (world 1 "k.pem" rsa_plain)
           (@mkWorld handles 0 (os_files (world 1 "k.pem" rsa_plain)) [true])
           rsa_bundle None
           pem_roundtrip_holds decrypt_inverts_encrypt_holds pkcs8_roundtrip_holds).
  reflexivity.
Defined.

Lemma imported_file_is_not_loadable_witness :
  exists kb ty,
    os_files (world 1 "k.pem" rsa_plain) (filepath_Clean "k.pem") = ok kb /\
    (ty = RSAPrivateKeyPemType \/ ty = ECPrivateKeyPemType) /\
    forall pass w0,
      LoadPrivateKey kb pass w0
      = (Return (None, Some (fmt_Errorf ("unsupported pem type: " ++ ty))), w0).
Proof.
  apply (imported_file_is_not_loadable
           "k.pem" (constant_pf hunter2) (world 1 "k.pem" rsa_plain)
           (@mkWorld handles 0 (os_files (world 1 "k.pem" rsa_plain)) [true])
           rsa_bundle None).
  reflexivity.
Defined.

Lemma bundle_is_not_importable_witness :
  ImportKeyPair "k.pem" (constant_pf letmein)
                (world 1 "k.pem" (PrivateBytes ec_bundle))
  = (Return (None, Some (fmt_Errorf
                           "unsupported pem type: ENCRYPTED COSIGN PRIVATE KEY")),
     world 1 "k.pem" (PrivateBytes ec_bundle)).
Proof.
  apply (bundle_is_not_importable
           "k.pem" (constant_pf letmein) (world 1 "k.pem" (PrivateBytes ec_bundle))
           (escape hunter2 ++ [x02; x02])%list pem_roundtrip_holds).
  reflexivity.
Defined.

Lemma PemToECDSAKey_on_bundle_witness :
  PemToECDSAKey [x02; x22] = (Some x22, None) /\
  PemToECDSAKey (PublicBytes rsa_bundle)
  = (None, Some (fmt_Errorf
                   "invalid public key: was *rsa.PublicKey, require *ecdsa.PublicKey")).
Proof.
  split.
  - apply (PemToECDSAKey_on_bundle
             mismatched (constant_pf hunter2) (world 1 "" [])
             (@mkWorld handles 0 (os_files (world 1 "" [])) [true])
             (mkKeys (encode (mkBlock PrivateKeyPemType []
                                      (escape hunter2 ++ [x01; x11])%list))
                     [x02; x22] hunter2)
             None public_pem_roundtrip_holds).
    reflexivity.
  - apply (PemToECDSAKey_on_bundle
             (mkKey (@rsa_priv handles x11) (@rsa_pub handles x11))
             (constant_pf hunter2) (world 1 "" [])
             (@mkWorld handles 0 (os_files (world 1 "" [])) [true])
             rsa_bundle None public_pem_roundtrip_holds).
    reflexivity.
Defined.

End MoreRuns.
